(** * Geoportal: ingestion pipeline ([load_data]) and map builder ([create_map])

    A shallow embedding of [src/geoportal.py].  The Python function
    [load_data] is a single [try / except / finally] block that threads two
    local variables ([tmp_path], [extract_dir]) and a file system through
    calls into [tempfile], [zipfile], [os], [shutil], [geopandas] and
    [streamlit].  The embedding keeps that shape: a small state-and-completion
    monad for the statements, a finite map for the file system, a trace of the
    externally visible calls, and a record [Env] for the behaviour of the
    libraries the script calls but does not define. *)

From Stdlib Require Import ZArith Ascii String List PrimFloat.
From stdpp Require Import base option list gmap strings.
From stdpp Require Import pretty.

#[local] Set Warnings "-register-all,-inexact-float".
Local Open Scope string_scope.
Local Open Scope list_scope.

(** ** Python string primitives used by the script *)

Module PyStr.

(** [str.lower] on the ASCII range: the letters [A]-[Z] are lowered, every
    other character, those outside ASCII included, is left as it is.  On a
    string of ASCII characters this is Python's [str.lower]. *)
Definition lower_ascii (c : ascii) : ascii :=
  let n := nat_of_ascii c in
  if (Nat.leb 65 n && Nat.leb n 90)%bool then ascii_of_nat (n + 32) else c.

Fixpoint lower (s : string) : string :=
  match s with
  | EmptyString => EmptyString
  | String c r => String (lower_ascii c) (lower r)
  end.

Fixpoint is_prefix (p s : list ascii) : bool :=
  match p, s with
  | [], _ => true
  | a :: p', b :: s' => if Ascii.eqb a b then is_prefix p' s' else false
  | _ :: _, [] => false
  end.

(** [s.endswith(suf)] *)
Definition endswith (s suf : string) : bool :=
  is_prefix (rev (list_ascii_of_string suf)) (rev (list_ascii_of_string s)).

(** [s.startswith(pre)] *)
Definition startswith (s pre : string) : bool :=
  is_prefix (list_ascii_of_string pre) (list_ascii_of_string s).

(** [s.rfind(c)] for a one-character needle: index of the last occurrence,
    [-1] when there is none. *)
Fixpoint rfind_from (i : Z) (c : ascii) (l : list ascii) (acc : Z) : Z :=
  match l with
  | [] => acc
  | a :: r => rfind_from (i + 1) c r (if Ascii.eqb a c then i else acc)
  end.

Definition rfind (s : string) (c : ascii) : Z :=
  rfind_from 0 c (list_ascii_of_string s) (-1).

(** The slice [s[i:j]] for [0 <= i]. *)
Definition slice (l : list ascii) (i j : Z) : list ascii :=
  firstn (Z.to_nat (j - i)) (skipn (Z.to_nat i) l).

Definition is_dot (c : ascii) : bool := Ascii.eqb c ".".

(** [os.path.splitext] (posixpath, through [genericpath._splitext] with
    [sep = "/"], [extsep = "."]).  The source's [while] loop looks for a
    character other than a dot between the last separator and the last dot;
    here that search is the [forallb]. *)
Definition splitext (p : string) : string * string :=
  let l := list_ascii_of_string p in
  let sepIndex := rfind p "/" in
  let dotIndex := rfind p "." in
  if (sepIndex <? dotIndex)%Z then
    if forallb is_dot (slice l (sepIndex + 1) dotIndex)
    then (p, "")
    else (string_of_list_ascii (firstn (Z.to_nat dotIndex) l),
          string_of_list_ascii (skipn (Z.to_nat dotIndex) l))
  else (p, "").

(** [os.path.join(a, b)] (posixpath, two arguments). *)
Definition join (a b : string) : string :=
  if startswith b "/" then b
  else if (String.eqb a "" || endswith a "/")%bool then a +:+ b
  else a +:+ "/" +:+ b.

End PyStr.

(** ** Data *)

(** An exception is represented by the text [str(e)] that the script
    interpolates into its messages.  Every fault modelled here is an instance
    of Python's [Exception], the class the script's handlers catch. *)
Definition Exn : Type := string.

Inductive Result (A : Type) : Type :=
| Ok (a : A)
| Err (e : Exn).
Arguments Ok {A} a.
Arguments Err {A} e.

(** A coordinate reference system as a data set declares it. *)
Inductive CRS : Type :=
| EPSG (code : Z)
| WKT (definition : string).

Definition WGS84 : CRS := EPSG 4326.

Inductive Geometry : Type :=
| Point (x y : float)
| LineString (pts : list (float * float))
| Polygon (rings : list (list (float * float))).

Inductive Cell : Type :=
| Null
| Text (s : string)
| Number (x : float)
| Shape (g : Geometry).

(** A [geopandas.GeoDataFrame]: an index of [nrows] features, named columns
    (each a series of cells) in their stable order, and the declared
    reference system ([None] when the data is unlabeled). *)
Record GeoDataFrame : Type := mkGDF {
  nrows : nat;
  series : list (string * list Cell);
  crs : option CRS
}.

(** [gdf.columns] *)
Definition columns (gdf : GeoDataFrame) : list string := map fst (series gdf).

(** [gdf.empty]: pandas reports a frame empty when either axis has length 0. *)
Definition empty (gdf : GeoDataFrame) : bool :=
  (Nat.eqb (nrows gdf) 0 || Nat.eqb (length (series gdf)) 0)%bool.

(** ["geometry" in gdf.columns] *)
Definition has_geometry_column (gdf : GeoDataFrame) : bool :=
  existsb (String.eqb "geometry") (columns gdf).

(** [gdf.geometry]: the cells of the geometry column, i.e. the coordinates
    of the data set. *)
Definition geometry (gdf : GeoDataFrame) : list Cell :=
  match find (fun c => String.eqb "geometry" (fst c)) (series gdf) with
  | Some c => snd c
  | None => []
  end.

(** The object handed over by [st.file_uploader]. *)
Record UploadedFile : Type := mkUpload {
  name : string;
  getbuffer : list Byte.byte
}.

(** *** File system *)

(** The content of a directory, in the order in which the operating system
    lists it ([os.scandir], which [os.walk] iterates). *)
Inductive Entry : Type :=
| File (fname : string) (data : list Byte.byte)
| Dir (dname : string) (children : list Entry).

Inductive Node : Type :=
| RegFile (data : list Byte.byte)
| Directory (children : list Entry).

(** What a call does that the outside can observe. *)
Inductive Event : Type :=
| EvCreate (p : string)                      (* NamedTemporaryFile created p *)
| EvMkdir (p : string)                       (* mkdtemp created p            *)
| EvRead (p : string) (driver : option string) (* gpd.read_file(p, driver=)  *)
| EvError (msg : string)                     (* st.error(msg)                *)
| EvWarning (msg : string)                   (* st.warning(msg)              *)
| EvRemove (p : string)                      (* os.remove(p)                 *)
| EvRmtree (p : string).                     (* shutil.rmtree(p, ...)        *)

Record World : Type := mkWorld {
  fs : gmap string Node;
  trace : list Event
}.

(** The local variables of [load_data] that its [finally] block reads. *)
Record State : Type := mkState {
  world : World;
  tmp_path : option string;
  extract_dir : option string
}.

(** *** Libraries the script calls

    None of these is defined in the repository; the pipeline is verified for
    every behaviour of them, and the few properties that depend on what
    geopandas does are stated under the contract they need (see
    [set_crs_assigns], [to_crs_result], [to_crs_same]).  The file system is
    that of one process: creating and deleting succeed on the paths they
    apply to, and fail as Python does on the others. *)
Record Env : Type := mkEnv {
  (* tempfile: the directory and the random infix of the names it picks,
     or the fault it raises before anything is created *)
  gettempdir : string;
  tmpfile_rand : Result string;
  tmpdir_rand : Result string;
  (* tmp.write(uploaded_file.getbuffer()): the fault it raises, if any *)
  write_fault : list Byte.byte -> option Exn;
  (* zipfile.ZipFile(...).extractall(...): what ends up in the directory,
     as the operating system lists it, and the fault raised, if any *)
  extractall : list Byte.byte -> list Entry * option Exn;
  (* geopandas *)
  read_file : gmap string Node -> string -> option string -> Result GeoDataFrame;
  set_crs : GeoDataFrame -> Z -> Result GeoDataFrame;
  to_crs : GeoDataFrame -> Z -> Result GeoDataFrame;
  centroid : GeoDataFrame -> Result (float * float);
  to_json : GeoDataFrame -> Result string
}.

(** ** Statements: state, early return and exceptions *)

Inductive Completion (R A : Type) : Type :=
| Normal (a : A)
| Return (v : R)
| Raise (e : Exn).
Arguments Normal {R A} a.
Arguments Return {R A} v.
Arguments Raise {R A} e.

Definition Stmt (S R A : Type) : Type := S -> S * Completion R A.

Definition pure {S R A} (a : A) : Stmt S R A := fun s => (s, Normal a).

Definition bind {S R A B} (m : Stmt S R A) (k : A -> Stmt S R B) : Stmt S R B :=
  fun s =>
    match m s with
    | (s', Normal a) => k a s'
    | (s', Return v) => (s', Return v)
    | (s', Raise e) => (s', Raise e)
    end.

Declare Scope stmt_scope.
Delimit Scope stmt_scope with stmt.
Notation "'let*' x := m 'in' k" := (bind m (fun x => k))
  (at level 10, x name, m at level 100, k at level 200) : stmt_scope.
Notation "m >> k" := (bind m (fun _ => k))
  (at level 100, k at level 200, right associativity) : stmt_scope.
Local Open Scope stmt_scope.

(** [return v] *)
Definition py_return {S R A} (v : R) : Stmt S R A := fun s => (s, Return v).

(** [raise e] *)
Definition py_raise {S R A} (e : Exn) : Stmt S R A := fun s => (s, Raise e).

Definition get {S R} : Stmt S R S := fun s => (s, Normal s).

Definition modify {S R} (f : S -> S) : Stmt S R unit := fun s => (f s, Normal tt).

Definition lift {S R A} (r : Result A) : Stmt S R A :=
  match r with
  | Ok a => pure a
  | Err e => py_raise e
  end.

(** [try: body  except Exception as e: handler e] *)
Definition try_except {S R A} (body : Stmt S R A) (handler : Exn -> Stmt S R A)
  : Stmt S R A :=
  fun s =>
    match body s with
    | (s', Raise e) => handler e s'
    | r => r
    end.

(** [try: body  finally: fin].  The [finally] block runs however the body
    completed; a [return] or an exception inside it replaces the body's
    completion. *)
Definition try_finally {S R A} (body : Stmt S R A) (fin : Stmt S R unit)
  : Stmt S R A :=
  fun s =>
    let '(s1, c) := body s in
    match fin s1 with
    | (s2, Normal _) => (s2, c)
    | (s2, Return v) => (s2, Return v)
    | (s2, Raise e) => (s2, Raise e)
    end.

(** How a call of a function ends: with a value, or with an exception that
    propagates to the caller. *)
Inductive Outcome (R : Type) : Type :=
| Returned (v : R)
| Raised (e : Exn).
Arguments Returned {R} v.
Arguments Raised {R} e.

(** [post m s Q]: running [m] from [s] ends in a state and a completion that
    satisfy [Q]. *)
Definition post {S R A} (m : Stmt S R A) (s : S)
    (Q : S -> Completion R A -> Prop) : Prop :=
  Q (fst (m s)) (snd (m s)).

(** ** The operations [load_data] calls *)

Definition set_world (f : World -> World) (s : State) : State :=
  mkState (f (world s)) (tmp_path s) (extract_dir s).

Definition log (ev : Event) (w : World) : World :=
  mkWorld (fs w) (trace w ++ [ev]).

Definition set_fs (f : gmap string Node -> gmap string Node) (w : World) : World :=
  mkWorld (f (fs w)) (trace w).

(** The names [tempfile] hands out: [<dir>/tmp<random><suffix>] (its default
    prefix is ["tmp"]). *)
Definition scratch_name (dir rand suffix : string) : string :=
  dir +:+ "/tmp" +:+ rand +:+ suffix.

Section Operations.

Context {R : Type}.
Variable env : Env.

(** [tempfile.NamedTemporaryFile(delete=False, suffix=suffix)]: creates a new,
    empty file under a name that does not exist yet.  [delete=False]: closing
    the file leaves it on disk. *)
Definition NamedTemporaryFile (suffix : string) : Stmt State R string :=
  let* r := lift (tmpfile_rand env) in
  let p := scratch_name (gettempdir env) r suffix in
  let* s := get in
  match fs (world s) !! p with
  | Some _ => py_raise ("[Errno 17] File exists: " +:+ p)
  | None =>
      modify (set_world (fun w => log (EvCreate p) (set_fs (insert p (RegFile [])) w))) >>
      pure p
  end.

(** [tmp.write(buf)] inside the [with] block, followed by the block's exit:
    on a fault the file is closed and, because of [delete=False], stays. *)
Definition tmp_write (p : string) (buf : list Byte.byte) : Stmt State R unit :=
  match write_fault env buf with
  | Some e => py_raise e
  | None => modify (set_world (set_fs (insert p (RegFile buf))))
  end.

(** [tempfile.mkdtemp()] *)
Definition mkdtemp : Stmt State R string :=
  let* r := lift (tmpdir_rand env) in
  let p := scratch_name (gettempdir env) r "" in
  let* s := get in
  match fs (world s) !! p with
  | Some _ => py_raise ("[Errno 17] File exists: " +:+ p)
  | None =>
      modify (set_world (fun w => log (EvMkdir p) (set_fs (insert p (Directory [])) w))) >>
      pure p
  end.

(** [with zipfile.ZipFile(src, 'r') as zip_ref: zip_ref.extractall(dst)] *)
Definition zip_extractall (src dst : string) : Stmt State R unit :=
  let* s := get in
  match fs (world s) !! src with
  | Some (RegFile data) =>
      let '(entries, fault) := extractall env data in
      modify (set_world (set_fs (insert dst (Directory entries)))) >>
      match fault with
      | Some e => py_raise e
      | None => pure tt
      end
  | _ => py_raise ("[Errno 2] No such file or directory: " +:+ src)
  end.

(** [gpd.read_file(p)] and [gpd.read_file(p, driver=d)] *)
Definition gpd_read_file (p : string) (driver : option string)
  : Stmt State R GeoDataFrame :=
  modify (set_world (log (EvRead p driver))) >>
  let* s := get in
  lift (read_file env (fs (world s)) p driver).

(** [st.error(msg)] *)
Definition st_error (msg : string) : Stmt State R unit :=
  modify (set_world (log (EvError msg))).

(** [os.path.exists(p)] *)
Definition os_path_exists (p : string) : Stmt State R bool :=
  let* s := get in
  pure (bool_decide (is_Some (fs (world s) !! p))).

(** [os.remove(p)] on a host that lets an existing file go; the fault of a
    host that does not is in [os_remove_on] below. *)
Definition os_remove (p : string) : Stmt State R unit :=
  let* s := get in
  match fs (world s) !! p with
  | Some (RegFile _) =>
      modify (set_world (fun w => log (EvRemove p) (set_fs (delete p) w)))
  | Some (Directory _) => py_raise ("[Errno 21] Is a directory: " +:+ p)
  | None => py_raise ("[Errno 2] No such file or directory: " +:+ p)
  end.

(** [shutil.rmtree(p, ignore_errors=True)] on a host that lets the tree go:
    removes the tree; on anything that is not a directory the error is
    ignored and nothing is done.  A host on which part of the tree stays is
    in [shutil_rmtree_on] below. *)
Definition shutil_rmtree (p : string) : Stmt State R unit :=
  let* s := get in
  match fs (world s) !! p with
  | Some (Directory _) =>
      modify (set_world (fun w => log (EvRmtree p) (set_fs (delete p) w)))
  | _ => modify (set_world (log (EvRmtree p)))
  end.

End Operations.

(** *** [os.walk] *)

Definition dirnames (es : list Entry) : list string :=
  flat_map (fun e => match e with Dir n _ => [n] | File _ _ => [] end) es.

Definition filenames (es : list Entry) : list string :=
  flat_map (fun e => match e with File n _ => [n] | Dir _ _ => [] end) es.

(** The triples [(root, dirs, files)] that [os.walk(top)] yields below one
    entry of [top]: nothing for a file; for a directory its own triple, then
    those of its subdirectories, in listing order (top-down walk). *)
Fixpoint walk_entry (top : string) (e : Entry)
  : list (string * list string * list string) :=
  match e with
  | File _ _ => []
  | Dir n children =>
      let root := PyStr.join top n in
      (root, dirnames children, filenames children)
        :: flat_map (walk_entry root) children
  end.

(** [os.walk(top)] for a directory [top] whose listing is [es]. *)
Definition os_walk (top : string) (es : list Entry)
  : list (string * list string * list string) :=
  (top, dirnames es, filenames es) :: flat_map (walk_entry top) es.

(** Lines 87-91: the paths of all files whose lower-cased name ends in
    [".shp"], in the order the walk meets them. *)
Definition collect_shp (walk : list (string * list string * list string))
  : list string :=
  flat_map
    (fun '(root, _, files) =>
       flat_map
         (fun file =>
            if PyStr.endswith (PyStr.lower file) ".shp"
            then [PyStr.join root file] else [])
         files)
    walk.

(** [os.walk(extract_dir)] on the current file system; a path that is not a
    directory yields nothing. *)
Definition walk_dir (fsys : gmap string Node) (top : string)
  : list (string * list string * list string) :=
  match fsys !! top with
  | Some (Directory es) => os_walk top es
  | _ => []
  end.

(** ** [load_data] *)

(** The four messages the function reports through [st.error]. *)
Definition msg_zip_unreadable (e : Exn) : string :=
  "❌ File ZIP tidak dapat diekstrak: " +:+ e.
Definition msg_no_shp : string :=
  "❌ File ZIP tidak mengandung file .shp yang valid.".
Definition msg_no_geometry : string :=
  "❌ File terbaca tetapi tidak memiliki kolom geometri.".
Definition msg_load_failed (e : Exn) : string :=
  "⚠️ Gagal memuat file: " +:+ e.

Definition assign_tmp_path {R} (p : string) : Stmt State R unit :=
  modify (fun s => mkState (world s) (Some p) (extract_dir s)).

Definition assign_extract_dir {R} (p : string) : Stmt State R unit :=
  modify (fun s => mkState (world s) (tmp_path s) (Some p)).

(** Truth value of a local that holds [None] or a string. *)
Definition truthy (v : option string) : bool :=
  match v with
  | Some p => negb (String.eqb p "")
  | None => false
  end.

Section LoadData.

Variable env : Env.

Let M := Stmt State (option GeoDataFrame).

(** Line 69 *)
Definition upload_suffix (uploaded_file : UploadedFile) : string :=
  PyStr.lower (snd (PyStr.splitext (name uploaded_file))).

(** Lines 70-72: the upload is saved to a scratch file.  [tmp_path] is
    assigned after the write, inside the [with] block; the value returned
    here is the one it then holds.  The close at the end of the block is
    taken to succeed; [save_upload_on] below has its fault. *)
Definition save_upload (uploaded_file : UploadedFile) (suffix : string)
  : M string :=
  let* tmp := NamedTemporaryFile env suffix in
  tmp_write env tmp (getbuffer uploaded_file) >>
  assign_tmp_path tmp >>
  pure tmp.

(** Lines 76-101: the archive branch. *)
Definition read_archive (tmp : string) : M GeoDataFrame :=
  let* d := mkdtemp env in
  assign_extract_dir d >>
  try_except
    (zip_extractall env tmp d)
    (fun e => st_error (msg_zip_unreadable e) >> py_return None) >>
  let* s := get in
  let shp_files := collect_shp (walk_dir (fs (world s)) d) in
  match shp_files with
  | [] => st_error msg_no_shp >> py_return None
  | shp_path :: _ => gpd_read_file env shp_path (Some "ESRI Shapefile")
  end.

(** Lines 69-105: everything up to the frame the format driver returns. *)
Definition read_upload (uploaded_file : UploadedFile) : M GeoDataFrame :=
  let suffix := upload_suffix uploaded_file in
  let* tmp := save_upload uploaded_file suffix in
  if String.eqb suffix ".zip" then read_archive tmp
  else gpd_read_file env tmp None.

(** Lines 113-116: an unlabeled frame is labelled, a labelled one
    reprojected. *)
Definition reproject (gdf : GeoDataFrame) : Result GeoDataFrame :=
  match crs gdf with
  | None => set_crs env gdf 4326
  | Some _ => to_crs env gdf 4326
  end.

(** Lines 108-118: validation and normalisation of the loaded frame. *)
Definition normalize (gdf : GeoDataFrame) : M unit :=
  if (empty gdf || negb (has_geometry_column gdf))%bool then
    st_error msg_no_geometry >> py_return None
  else
    let* gdf' := lift (reproject gdf) in
    py_return (Some gdf').

(** Lines 67-118: the body of the [try]. *)
Definition load_data_try (uploaded_file : UploadedFile) : M unit :=
  let* gdf := read_upload uploaded_file in
  normalize gdf.

(** Lines 120-122 *)
Definition load_data_except (e : Exn) : M unit :=
  st_error (msg_load_failed e) >> py_return None.

(** Lines 124-129 *)
Definition load_data_finally : M unit :=
  let* s := get in
  (match tmp_path s with
   | Some p =>
       if truthy (tmp_path s) then
         let* ex := os_path_exists p in
         if ex then os_remove p else pure tt
       else pure tt
   | None => pure tt
   end) >>
  match extract_dir s with
  | Some d =>
      if truthy (extract_dir s) then
        let* ex := os_path_exists d in
        if ex then shutil_rmtree d else pure tt
      else pure tt
  | None => pure tt
  end.

(** [load_data(uploaded_file)], called on a file system and a trace; falling
    off the end of the function returns [None].  This is the function on a
    host where the close of the scratch file and the two deletions of the
    [finally] block succeed; [load_data_on] below is the function on any
    host. *)
Definition load_data (uploaded_file : option UploadedFile) (w : World)
  : State * Outcome (option GeoDataFrame) :=
  match uploaded_file with
  | None => (mkState w None None, Returned None)
  | Some up =>
      let '(s, c) :=
        try_finally
          (try_except (load_data_try up) load_data_except)
          load_data_finally
          (mkState w None None) in
      (s, match c with
          | Normal _ => Returned None
          | Return v => Returned v
          | Raise e => Raised e
          end)
  end.

End LoadData.

(** ** [create_map] *)

Record TileInfo : Type := mkTile {
  tiles : string;
  attr : string
}.

(** Lines 42-55 *)
Definition TILE_MAP : gmap string TileInfo :=
  <["OpenStreetMap" :=
      mkTile "OpenStreetMap" "© OpenStreetMap contributors"]>
  (<["CartoDB Positron" :=
      mkTile "CartoDB Positron" "© OpenStreetMap contributors © CartoDB"]>
  (<["Stamen Terrain" :=
      mkTile "Stamen Terrain"
        "Map tiles by Stamen Design, under CC BY 3.0. Data © OpenStreetMap contributors"]>
   ∅)).

Inductive Layer : Type :=
| GeoJson (data : string) (lname : string) (tooltip_fields : list string)
| LayerControl.

(** A [folium.Map] as far as the script configures it. *)
Record FoliumMap : Type := mkMap {
  location : float * float;
  zoom_start : Z;
  map_tiles : string;
  map_attr : string;
  layers : list Layer
}.

Definition add_to (l : Layer) (m : FoliumMap) : FoliumMap :=
  mkMap (location m) (zoom_start m) (map_tiles m) (map_attr m) (layers m ++ [l]).

(** [d[k]]: a missing key raises [KeyError]. *)
Definition dict_getitem {S R V} (d : gmap string V) (k : string) : Stmt S R V :=
  match d !! k with
  | Some v => pure v
  | None => py_raise ("KeyError: " +:+ k)
  end.

(** [d.get(k, dflt)] *)
Definition dict_get {V} (d : gmap string V) (k : string) (dflt : V) : V :=
  match d !! k with
  | Some v => v
  | None => dflt
  end.

Definition st_warning {R} (msg : string) : Stmt World R unit :=
  modify (log (EvWarning msg)).

Definition default_center : float * float := ((-6.2088)%float, 106.8456%float).

Section CreateMap.

Variable env : Env.

Let M := Stmt World FoliumMap.

(** Lines 138-143 *)
Definition map_center (gdf : option GeoDataFrame) : M (float * float) :=
  match gdf with
  | Some g =>
      if negb (empty g) then
        try_except
          (let* c := lift (centroid env g) in pure (snd c, fst c))
          (fun _ => pure default_center)
      else pure default_center
  | None => pure default_center
  end.

(** Lines 154-164 *)
Definition add_data_layer (gdf : option GeoDataFrame) (m : FoliumMap) : M FoliumMap :=
  match gdf with
  | Some g =>
      if negb (empty g) then
        try_except
          (let* js := lift (to_json env g) in
           pure (add_to
                   (GeoJson js "Data Geospasial"
                      (List.filter (fun c => negb (String.eqb c "geometry")) (columns g)))
                   m))
          (fun e => st_warning ("⚠️ Tidak dapat menambahkan layer: " +:+ e) >> pure m)
      else pure m
  | None => pure m
  end.

(** Lines 134-167 *)
Definition create_map_body (gdf : option GeoDataFrame) (basemap : string) : M unit :=
  let* center := map_center gdf in
  let* dflt := dict_getitem TILE_MAP "OpenStreetMap" in
  let tile_info := dict_get TILE_MAP basemap dflt in
  let m := mkMap center 10 (tiles tile_info) (attr tile_info) [] in
  let* m := add_data_layer gdf m in
  py_return (add_to LayerControl m).

(** [create_map(gdf, basemap)]; the body always ends in [return m]. *)
Definition create_map (gdf : option GeoDataFrame) (basemap : string) (w : World)
  : World * Outcome (option FoliumMap) :=
  let '(w', c) := create_map_body gdf basemap w in
  (w', match c with
       | Normal _ => Returned None
       | Return m => Returned (Some m)
       | Raise e => Raised e
       end).

End CreateMap.

(** ** The part of geopandas' behaviour that some properties rest on *)

(** [GeoDataFrame.set_crs] on an unlabeled frame only attaches the label. *)
Definition set_crs_assigns (env : Env) : Prop :=
  forall g code g',
    crs g = None ->
    set_crs env g code = Ok g' ->
    g' = mkGDF (nrows g) (series g) (Some (EPSG code)).

(** [GeoDataFrame.to_crs], when it succeeds, yields a frame of the same shape
    labelled with the target system. *)
Definition to_crs_result (env : Env) : Prop :=
  forall g code g',
    to_crs env g code = Ok g' ->
    crs g' = Some (EPSG code) /\ nrows g' = nrows g /\ columns g' = columns g.

(** [GeoDataFrame.to_crs] to the system the frame already declares hands the
    frame back as it is (geopandas compares the two systems first). *)
Definition to_crs_same (env : Env) : Prop :=
  forall g code, crs g = Some (EPSG code) -> to_crs env g code = Ok g.

(** ** A reference environment

    A concrete, executable instance of [Env], used to run the pipeline on
    examples. *)

#[global] Instance CRS_eq_dec : EqDecision CRS.
Proof. solve_decision. Defined.

Definition ref_set_crs (g : GeoDataFrame) (code : Z) : Result GeoDataFrame :=
  match crs g with
  | None => Ok (mkGDF (nrows g) (series g) (Some (EPSG code)))
  | Some c =>
      if decide (c = EPSG code) then Ok g
      else Err "The GeoSeries already has a CRS which is not equal to the passed CRS."
  end.

Definition map_geometry (f : Geometry -> Geometry) (g : GeoDataFrame)
  : list (string * list Cell) :=
  map (fun c =>
         if String.eqb "geometry" (fst c)
         then (fst c, map (fun x => match x with Shape sh => Shape (f sh) | _ => x end) (snd c))
         else c)
      (series g).

Definition ref_to_crs (proj : CRS -> Z -> Geometry -> Geometry)
    (g : GeoDataFrame) (code : Z) : Result GeoDataFrame :=
  match crs g with
  | None => Err "Cannot transform naive geometries.  Please set a crs on the object first."
  | Some c =>
      if decide (c = EPSG code) then Ok g
      else Ok (mkGDF (nrows g) (map_geometry (proj c code) g) (Some (EPSG code)))
  end.

(** A stand-in for a projection: it only has to move the coordinates. *)
Definition swap_xy (_ : CRS) (_ : Z) (sh : Geometry) : Geometry :=
  match sh with
  | Point x y => Point y x
  | LineString pts => LineString (map (fun p => (snd p, fst p)) pts)
  | Polygon rings => Polygon (map (map (fun p => (snd p, fst p))) rings)
  end.

Definition ref_centroid (g : GeoDataFrame) : Result (float * float) :=
  match geometry g with
  | Shape (Point x y) :: _ => Ok (x, y)
  | _ => Err "centroid undefined"
  end.

Definition ref_env (archive : list Entry * option Exn)
    (wfault : option Exn) (frame : Result GeoDataFrame) : Env :=
  mkEnv "/tmp" (Ok "k3v9x2ab") (Ok "q7w1e5zz")
        (fun _ => wfault)
        (fun _ => archive)
        (fun _ _ _ => frame)
        ref_set_crs
        (ref_to_crs swap_xy)
        ref_centroid
        (fun _ => Ok "{}").

Definition world0 : World := mkWorld ∅ [].

Definition jakarta : GeoDataFrame :=
  mkGDF 1
    [("nama", [Text "Monas"]);
     ("geometry", [Shape (Point 106.8272%float (-6.1754)%float)])]
    None.

Definition jakarta_wgs84 : GeoDataFrame :=
  mkGDF (nrows jakarta) (series jakarta) (Some WGS84).

Definition jakarta_utm : GeoDataFrame :=
  mkGDF 1
    [("nama", [Text "Monas"]);
     ("geometry", [Shape (Point 702000%float 9317000%float)])]
    (Some (EPSG 32748)).

Definition no_features : GeoDataFrame :=
  mkGDF 0 [("nama", []); ("geometry", [])] (Some WGS84).

Definition bundle (stem : string) : list Entry :=
  [File (stem +:+ ".dbf") []; File (stem +:+ ".shp") []; File (stem +:+ ".shx") []].

(** Two shapefile bundles under [a/] and [b/], as an operating system that
    lists [a] first, and as one that lists [b] first, present them. *)
Definition archive_ab : list Entry := [Dir "a" (bundle "jalan"); Dir "b" (bundle "sungai")].
Definition archive_ba : list Entry := [Dir "b" (bundle "sungai"); Dir "a" (bundle "jalan")].

Definition upload_geojson : UploadedFile := mkUpload "monas.geojson" [].
Definition upload_zip : UploadedFile := mkUpload "Batas.ZIP" [].

(** ** Notions the properties are stated with *)

(** Whatever the locals hold names a scratch object that exists, of the
    right kind. *)
Definition Inv (s : State) : Prop :=
  (forall p, tmp_path s = Some p ->
     truthy (Some p) = true /\ exists data, fs (world s) !! p = Some (RegFile data)) /\
  (forall d, extract_dir s = Some d ->
     truthy (Some d) = true /\ exists es, fs (world s) !! d = Some (Directory es)).

Definition delete_opt (p : option string) (m : gmap string Node) : gmap string Node :=
  match p with
  | Some q => delete q m
  | None => m
  end.

Definition removal_events (s : State) : list Event :=
  match tmp_path s with Some p => [EvRemove p] | None => [] end ++
  match extract_dir s with Some d => [EvRmtree d] | None => [] end.

(** The state the [finally] block leaves when the locals are as [Inv] says. *)
Definition cleaned (s : State) : State :=
  mkState
    (mkWorld (delete_opt (extract_dir s) (delete_opt (tmp_path s) (fs (world s))))
             (trace (world s) ++ removal_events s))
    (tmp_path s) (extract_dir s).

Definition report (msg : string) (s : State) : State :=
  set_world (log (EvError msg)) s.

(** The messages passed to [st.error] among some events. *)
Definition errors (evs : list Event) : list string :=
  flat_map (fun ev => match ev with EvError m => [m] | _ => [] end) evs.

(** The calls of [os.remove] and [shutil.rmtree] among some events. *)
Definition removals (evs : list Event) : list Event :=
  flat_map (fun ev => match ev with
                      | EvRemove _ | EvRmtree _ => [ev]
                      | _ => []
                      end) evs.

(** The frame the format driver hands back for an upload, when the pipeline
    gets that far. *)
Definition loaded_frame (env : Env) (up : UploadedFile) (w : World)
  : option GeoDataFrame :=
  match read_upload env up (mkState w None None) with
  | (_, Normal g) => Some g
  | _ => None
  end.

(** The tile provider the basemap argument stands for: the entry of that
    name among the three of the table, the OpenStreetMap entry for any other
    string. *)
Definition expected_tiles (basemap : string) : TileInfo :=
  if String.eqb basemap "CartoDB Positron" then
    mkTile "CartoDB Positron" "© OpenStreetMap contributors © CartoDB"
  else if String.eqb basemap "Stamen Terrain" then
    mkTile "Stamen Terrain"
      "Map tiles by Stamen Design, under CC BY 3.0. Data © OpenStreetMap contributors"
  else mkTile "OpenStreetMap" "© OpenStreetMap contributors".

(** Line 30: the types the upload widget accepts, and the extensions they
    stand for. *)
Definition uploader_types : list string := ["geojson"; "kml"; "gpkg"; "zip"].


(** The calls of [gpd.read_file] among some events. *)
Definition read_calls (evs : list Event) : list (string * option string) :=
  flat_map (fun ev => match ev with EvRead p d => [(p, d)] | _ => [] end) evs.

(** Does the tree below an entry hold a file that line 90 accepts? *)
Fixpoint has_shp (e : Entry) : bool :=
  match e with
  | File n _ => PyStr.endswith (PyStr.lower n) ".shp"
  | Dir _ children => existsb has_shp children
  end.

(** A ZIP upload for which the scratch file and the extraction directory are
    created under the random names [r] and [r'], and whose extraction succeeds
    and leaves [entries] in the directory. *)
Definition extracts (env : Env) (up : UploadedFile) (w : World)
    (r r' : string) (entries : list Entry) : Prop :=
  upload_suffix up = ".zip" /\
  tmpfile_rand env = Ok r /\
  fs w !! scratch_name (gettempdir env) r ".zip" = None /\
  write_fault env (getbuffer up) = None /\
  tmpdir_rand env = Ok r' /\
  scratch_name (gettempdir env) r' "" <> scratch_name (gettempdir env) r ".zip" /\
  fs w !! scratch_name (gettempdir env) r' "" = None /\
  extractall env (getbuffer up) = (entries, None).

(** The file system once the archive is extracted. *)
Definition extracted_fs (env : Env) (up : UploadedFile) (w : World)
    (r r' : string) (entries : list Entry) : gmap string Node :=
  <[scratch_name (gettempdir env) r' "" := Directory entries]>
    (<[scratch_name (gettempdir env) r' "" := Directory []]>
       (<[scratch_name (gettempdir env) r ".zip" := RegFile (getbuffer up)]>
          (<[scratch_name (gettempdir env) r ".zip" := RegFile []]> (fs w)))).

(** The file system once a single-file upload is saved under the name [p]. *)
Definition saved_fs (up : UploadedFile) (w : World) (p : string)
  : gmap string Node :=
  <[p := RegFile (getbuffer up)]> (<[p := RegFile []]> (fs w)).

(** What line 90 makes of one file name. *)
Definition accepted (root file : string) : list string :=
  if PyStr.endswith (PyStr.lower file) ".shp" then [PyStr.join root file] else [].

(** Nothing is collected below a directory exactly when no file below it is
    accepted. *)
Definition walk_nil_at (e : Entry) : Prop :=
  forall top,
    match e with
    | File _ _ => True
    | Dir _ _ => collect_shp (walk_entry top e) = [] <-> has_shp e = false
    end.

(** The completion a library call's result stands for. *)
Definition completion_of {R A} (r : Result A) : Completion R A :=
  match r with
  | Ok a => Normal a
  | Err e => Raise e
  end.

(** ** Notions for the rest of the script *)

(** The scratch objects some events created. *)
Definition created (evs : list Event) : list string :=
  flat_map (fun ev => match ev with
                      | EvCreate p | EvMkdir p => [p]
                      | _ => []
                      end) evs.

(** The paths some events removed. *)
Definition removed (evs : list Event) : list string :=
  flat_map (fun ev => match ev with
                      | EvRemove p | EvRmtree p => [p]
                      | _ => []
                      end) evs.

(** What [read_upload] did to the file system: either everything it added is
    named by the locals, or the write faulted and the one file it added is
    named by nothing. *)
Definition scratch_accounted (env : Env) (up : UploadedFile) (w : World)
    (s : State) : Prop :=
  delete_opt (extract_dir s) (delete_opt (tmp_path s) (fs (world s))) = fs w \/
  (tmp_path s = None /\ extract_dir s = None /\
   exists p e, write_fault env (getbuffer up) = Some e /\
               fs w !! p = None /\
               fs (world s) = <[p := RegFile []]> (fs w)).

(** An archive upload whose scratch objects are created under the random
    names [r] and [r'] and whose extraction raises [e], leaving [partial]
    behind. *)
Definition extraction_fails (env : Env) (up : UploadedFile) (w : World)
    (r r' : string) (partial : list Entry) (e : Exn) : Prop :=
  upload_suffix up = ".zip" /\
  tmpfile_rand env = Ok r /\
  fs w !! scratch_name (gettempdir env) r ".zip" = None /\
  write_fault env (getbuffer up) = None /\
  tmpdir_rand env = Ok r' /\
  scratch_name (gettempdir env) r' "" <> scratch_name (gettempdir env) r ".zip" /\
  fs w !! scratch_name (gettempdir env) r' "" = None /\
  extractall env (getbuffer up) = (partial, Some e).

(** The accepted files that lie directly in the extraction directory. *)
Definition root_shp (top : string) (entries : list Entry) : list string :=
  flat_map (accepted top) (filenames entries).

(** An environment in which [mkdtemp] fails. *)
Definition env_no_tmpdir : Env :=
  mkEnv "/tmp" (Ok "k3v9x2ab") (Err "[Errno 28] No space left on device")
        (fun _ => None) (fun _ => ([], None)) (fun _ _ _ => Ok jakarta)
        ref_set_crs (ref_to_crs swap_xy) ref_centroid (fun _ => Ok "{}").

(** Line 160: the fields of the tooltip. *)
Definition tooltip_fields (g : GeoDataFrame) : list string :=
  List.filter (fun c => negb (String.eqb c "geometry")) (columns g).

(** ** The page

    Lines 14-37 and 172-206: the script itself.  The two sidebar widgets hand
    it its inputs, the upload and the basemap; what it puts on the page is
    recorded element by element, with the container it goes to.  Warnings
    and errors go to the trace, as in [load_data] and [create_map].  The
    display calls themselves are taken not to fail; the calls into
    [load_data], [create_map] and geopandas are the ones that can. *)

Inductive Container : Type := InPage | InSidebar | InCol1 | InCol2.

Inductive Element : Type :=
| ElPageConfig (page_title page_icon layout : string)
| ElTitle (body : string)
| ElMarkdown (body : string)
| ElHeader (body : string)
| ElFileUploader (label : string) (types : list string) (help : string)
| ElSelectbox (label : string) (options : list string)
| ElSpinner (text : string)
| ElSuccess (body : string)
| ElInfo (body : string)
| ElWrite (body : string)
| ElFolium (m : option FoliumMap) (width height : Z) (key : string)
| ElDataframe (g : GeoDataFrame)
| ElDownloadButton (label data file_name mime : string).

Record Page : Type := mkPage {
  page_world : World;
  page_elements : list (Container * Element)
}.

Definition emit {R} (c : Container) (el : Element) : Stmt Page R unit :=
  modify (fun pg => mkPage (page_world pg) (page_elements pg ++ [(c, el)])).

(** [st.warning(msg)] on the page. *)
Definition page_warning {R} (msg : string) : Stmt Page R unit :=
  modify (fun pg => mkPage (log (EvWarning msg) (page_world pg)) (page_elements pg)).

(** [gdf.head(n)] *)
Definition frame_head (n : nat) (g : GeoDataFrame) : GeoDataFrame :=
  mkGDF (Nat.min n (nrows g))
        (map (fun c => (fst c, firstn n (snd c))) (series g))
        (crs g).

Section App.

Variable env : Env.

Let M := Stmt Page unit.

(** A call of [load_data] from the script: an exception it raised would go
    on through the script. *)
Definition call_load_data (uploaded_file : option UploadedFile)
  : M (option GeoDataFrame) :=
  fun pg =>
    let '(s, o) := load_data env uploaded_file (page_world pg) in
    (mkPage (world s) (page_elements pg),
     match o with
     | Returned v => Normal v
     | Raised e => Raise e
     end).

Definition call_create_map (gdf : option GeoDataFrame) (basemap : string)
  : M (option FoliumMap) :=
  fun pg =>
    let '(w, o) := create_map env gdf basemap (page_world pg) in
    (mkPage w (page_elements pg),
     match o with
     | Returned v => Normal v
     | Raised e => Raise e
     end).

(** Lines 14-37 *)
Definition app_head : M unit :=
  emit InPage (ElPageConfig "Geoportal Sederhana" "🌍" "wide") >>
  emit InPage (ElTitle "🌍 Platform Visualisasi Data Geospasial Berbasis WebGIS") >>
  emit InPage (ElMarkdown "---") >>
  emit InSidebar (ElHeader "Konfigurasi Peta") >>
  emit InSidebar
    (ElFileUploader "Unggah File Geospasial" uploader_types
       "Format yang didukung: GeoJSON, KML, GPKG, atau Shapefile (ZIP)") >>
  emit InSidebar
    (ElSelectbox "Pilih Base Map" ["OpenStreetMap"; "CartoDB Positron"; "Stamen Terrain"]).

(** Lines 174-186: the map column.  The value is what the global [gdf] holds
    afterwards: nothing when no upload was there to load. *)
Definition app_col1 (uploaded_file : option UploadedFile) (basemap : string)
  : M (option (option GeoDataFrame)) :=
  match uploaded_file with
  | Some _ =>
      emit InCol1 (ElSpinner "📥 Memuat data...") >>
      let* gdf := call_load_data uploaded_file in
      match gdf with
      | Some g =>
          emit InCol1
            (ElSuccess ("✅ Data berhasil dimuat (" +:+ pretty (nrows g) +:+ " fitur)")) >>
          let* m := call_create_map gdf basemap in
          emit InCol1 (ElFolium m 750 500 "map")
      | None => page_warning "⚠️ Tidak ada data geospasial valid."
      end >>
      pure (Some gdf)
  | None =>
      let* m := call_create_map None "OpenStreetMap" in
      emit InCol1 (ElFolium m 750 500 "default_map") >>
      pure None
  end.

(** Lines 188-203: the information column. *)
Definition app_col2 (uploaded_file : option UploadedFile)
    (gdf : option (option GeoDataFrame)) : M unit :=
  emit InCol2 (ElHeader "📊 Informasi Data") >>
  match uploaded_file, gdf with
  | Some _, Some (Some g) =>
      emit InCol2 (ElWrite ("Jumlah fitur: " +:+ pretty (nrows g))) >>
      emit InCol2 (ElWrite ("Kolom: " +:+ String.concat ", " (columns g))) >>
      emit InCol2 (ElDataframe (frame_head 5 g)) >>
      let* geojson := lift (to_json env g) in
      emit InCol2
        (ElDownloadButton "💾 Download GeoJSON" geojson "data.geojson" "application/json")
  | _, _ => emit InCol2 (ElInfo "Unggah file untuk melihat informasi data.")
  end.

(** Lines 205-206 *)
Definition app_foot : M unit :=
  emit InPage (ElMarkdown "---") >>
  emit InPage
    (ElMarkdown "Dibuat dengan ❤️ oleh Adipandang Yudono | © 2025 Geoportal Sederhana").

(** One run of the script on the upload and the basemap the sidebar
    returned, on a host where closing and deleting succeed.  [run_script]
    below starts from the file the visitor offers to the upload widget. *)
Definition app (uploaded_file : option UploadedFile) (basemap : string) : M unit :=
  app_head >>
  let* gdf := app_col1 uploaded_file basemap in
  app_col2 uploaded_file gdf >>
  app_foot.

Definition run_app (uploaded_file : option UploadedFile) (basemap : string)
    (w : World) : Page * Outcome unit :=
  let '(pg, c) := app uploaded_file basemap (mkPage w []) in
  (pg, match c with
       | Normal _ => Returned tt
       | Return _ => Returned tt
       | Raise e => Raised e
       end).

End App.

(** The maps the page shows, with their keys. *)
Definition maps_shown (pg : Page) : list (option FoliumMap * string) :=
  flat_map (fun ce => match snd ce with
                      | ElFolium m _ _ key => [(m, key)]
                      | _ => []
                      end) (page_elements pg).

(** The download buttons of the page, by the data they offer. *)
Definition downloads (pg : Page) : list string :=
  flat_map (fun ce => match snd ce with
                      | ElDownloadButton _ data _ _ => [data]
                      | _ => []
                      end) (page_elements pg).

(** What lines 14-37 and lines 205-206 put on every page. *)
Definition page_top : list (Container * Element) :=
  [(InPage, ElPageConfig "Geoportal Sederhana" "🌍" "wide");
   (InPage, ElTitle "🌍 Platform Visualisasi Data Geospasial Berbasis WebGIS");
   (InPage, ElMarkdown "---");
   (InSidebar, ElHeader "Konfigurasi Peta");
   (InSidebar, ElFileUploader "Unggah File Geospasial" uploader_types
                 "Format yang didukung: GeoJSON, KML, GPKG, atau Shapefile (ZIP)");
   (InSidebar, ElSelectbox "Pilih Base Map"
                 ["OpenStreetMap"; "CartoDB Positron"; "Stamen Terrain"])].

Definition page_foot : list (Container * Element) :=
  [(InPage, ElMarkdown "---");
   (InPage, ElMarkdown "Dibuat dengan ❤️ oleh Adipandang Yudono | © 2025 Geoportal Sederhana")].

(** The map of a page without data: Jakarta, OpenStreetMap, no data layer. *)
Definition default_map : FoliumMap :=
  mkMap default_center 10 "OpenStreetMap" "© OpenStreetMap contributors" [LayerControl].

(** The summary the information column shows for a frame, up to the download
    button. *)
Definition summary_elements (g : GeoDataFrame) : list (Container * Element) :=
  [(InCol2, ElHeader "📊 Informasi Data");
   (InCol2, ElWrite ("Jumlah fitur: " +:+ pretty (nrows g)));
   (InCol2, ElWrite ("Kolom: " +:+ String.concat ", " (columns g)));
   (InCol2, ElDataframe (frame_head 5 g))].

Definition no_data_elements : list (Container * Element) :=
  [(InCol2, ElHeader "📊 Informasi Data");
   (InCol2, ElInfo "Unggah file untuk melihat informasi data.")].

(** ** The host under the script: what can fail around [load_data]

    [load_data] above is the function on a host where closing the scratch
    file and deleting the scratch objects succeed, called with whatever the
    upload widget handed over.  On a real host the close at the exit of the
    [with] block (lines 70-72) can raise, also after [tmp_path] is assigned,
    [os.remove] (line 127) can raise on a file that exists, and
    [shutil.rmtree(..., ignore_errors=True)] (line 129) can leave the tree, or
    part of it, behind without raising; and the upload widget of line 28
    decides what reaches the script at all.  [load_data_on] and [run_script]
    are the function and the script on such a host; on [reliable_host]
    [load_data_on] is [load_data] (see [load_data_on_reliable_host]). *)
Record Host : Type := mkHost {
  (* st.file_uploader(label, type=types, ...): from the types and the file the
     visitor offers, if any, to the value the call returns or the fault it
     raises *)
  file_uploader : list string -> option UploadedFile -> Result (option UploadedFile);
  (* the fault the with block raises when it closes the file, if any *)
  close_fault : list Byte.byte -> option Exn;
  (* the fault os.remove(p) raises on an existing file, if any *)
  remove_fault : string -> option Exn;
  (* what shutil.rmtree(p, ignore_errors=True) leaves of the tree at p:
     None for nothing, the directory is gone *)
  rmtree_left : string -> list Entry -> option (list Entry)
}.

(** The extensions a list of widget types stands for. *)
Definition type_suffixes (types : list string) : list string :=
  map (fun t => "." +:+ t) types.

(** The part of the widget's behaviour that the script relies on, an
    assumption on Streamlit wherever it is used: the widget hands over
    nothing but the offered file, and only when the extension of its name,
    lower-cased as on line 69, is one of the types. *)
Definition uploader_filters (h : Host) : Prop :=
  forall types offered f,
    file_uploader h types offered = Ok (Some f) ->
    offered = Some f /\
    existsb (String.eqb (upload_suffix f)) (type_suffixes types) = true.

(** A widget that refuses by raising. *)
Definition ref_file_uploader (types : list string) (offered : option UploadedFile)
  : Result (option UploadedFile) :=
  match offered with
  | None => Ok None
  | Some f =>
      if existsb (String.eqb (upload_suffix f)) (type_suffixes types)
      then Ok (Some f)
      else Err ("Invalid file extension: " +:+ upload_suffix f)
  end.

(** A widget that refuses by handing over nothing. *)
Definition quiet_file_uploader (types : list string) (offered : option UploadedFile)
  : Result (option UploadedFile) :=
  match offered with
  | None => Ok None
  | Some f =>
      if existsb (String.eqb (upload_suffix f)) (type_suffixes types)
      then Ok (Some f)
      else Ok None
  end.

Definition reliable_host : Host :=
  mkHost ref_file_uploader (fun _ => None) (fun _ => None) (fun _ _ => None).

(** A host on which the scratch file cannot be deleted. *)
Definition locked_host : Host :=
  mkHost ref_file_uploader (fun _ => None)
         (fun p => Some ("[WinError 32] The process cannot access the file: " +:+ p))
         (fun _ _ => None).

(** A host on which the close of the scratch file fails. *)
Definition full_disk_host : Host :=
  mkHost quiet_file_uploader (fun _ => Some "[Errno 28] No space left on device")
         (fun _ => None) (fun _ _ => None).

(** A host on which the extraction directory cannot be emptied. *)
Definition busy_dir_host : Host :=
  mkHost ref_file_uploader (fun _ => None) (fun _ => None) (fun _ es => Some es).

(** Deleting succeeds on this host. *)
Definition reliable_removal (h : Host) : Prop :=
  (forall p, remove_fault h p = None) /\
  (forall d es, rmtree_left h d es = None).

(** Is every character of the name an ASCII one?  On such names
    [PyStr.lower] is Python's [str.lower]. *)
Definition is_ascii (s : string) : bool :=
  forallb (fun c => (nat_of_ascii c <? 128)%nat) (list_ascii_of_string s).

Section OnHost.

Variable h : Host.
Variable env : Env.

Let M := Stmt State (option GeoDataFrame).

(** The exit of the [with] block of lines 70-72: the file is closed. *)
Definition tmp_close (buf : list Byte.byte) : M unit :=
  match close_fault h buf with
  | Some e => py_raise e
  | None => pure tt
  end.

(** [os.remove(p)] *)
Definition os_remove_on (p : string) : M unit :=
  let* s := get in
  match fs (world s) !! p with
  | Some (RegFile _) =>
      match remove_fault h p with
      | Some e => py_raise e
      | None => modify (set_world (fun w => log (EvRemove p) (set_fs (delete p) w)))
      end
  | Some (Directory _) => py_raise ("[Errno 21] Is a directory: " +:+ p)
  | None => py_raise ("[Errno 2] No such file or directory: " +:+ p)
  end.

(** [shutil.rmtree(p, ignore_errors=True)]: never raises; what it could not
    delete stays. *)
Definition shutil_rmtree_on (p : string) : M unit :=
  let* s := get in
  match fs (world s) !! p with
  | Some (Directory es) =>
      match rmtree_left h p es with
      | None => modify (set_world (fun w => log (EvRmtree p) (set_fs (delete p) w)))
      | Some rest =>
          modify (set_world (fun w =>
                    log (EvRmtree p) (set_fs (insert p (Directory rest)) w)))
      end
  | _ => modify (set_world (log (EvRmtree p)))
  end.

(** Lines 70-72: [with tempfile.NamedTemporaryFile(...) as tmp: ...].  The
    file is closed when the block is left, however it is left; a fault of the
    close replaces the one the block was left with. *)
Definition save_upload_on (uploaded_file : UploadedFile) (suffix : string)
  : M string :=
  let* tmp := NamedTemporaryFile env suffix in
  try_finally
    (tmp_write env tmp (getbuffer uploaded_file) >>
     assign_tmp_path tmp)
    (tmp_close (getbuffer uploaded_file)) >>
  pure tmp.

(** Lines 69-105 *)
Definition read_upload_on (uploaded_file : UploadedFile) : M GeoDataFrame :=
  let suffix := upload_suffix uploaded_file in
  let* tmp := save_upload_on uploaded_file suffix in
  if String.eqb suffix ".zip" then read_archive env tmp
  else gpd_read_file env tmp None.

(** Lines 67-118 *)
Definition load_data_try_on (uploaded_file : UploadedFile) : M unit :=
  let* gdf := read_upload_on uploaded_file in
  normalize env gdf.

(** Lines 124-129 *)
Definition load_data_finally_on : M unit :=
  let* s := get in
  (match tmp_path s with
   | Some p =>
       if truthy (tmp_path s) then
         let* ex := os_path_exists p in
         if ex then os_remove_on p else pure tt
       else pure tt
   | None => pure tt
   end) >>
  match extract_dir s with
  | Some d =>
      if truthy (extract_dir s) then
        let* ex := os_path_exists d in
        if ex then shutil_rmtree_on d else pure tt
      else pure tt
  | None => pure tt
  end.

(** [load_data(uploaded_file)] on the host [h]. *)
Definition load_data_on (uploaded_file : option UploadedFile) (w : World)
  : State * Outcome (option GeoDataFrame) :=
  match uploaded_file with
  | None => (mkState w None None, Returned None)
  | Some up =>
      let '(s, c) :=
        try_finally
          (try_except (load_data_try_on up) load_data_except)
          load_data_finally_on
          (mkState w None None) in
      (s, match c with
          | Normal _ => Returned None
          | Return v => Returned v
          | Raise e => Raised e
          end)
  end.

End OnHost.

(** Where [try] and [except] leave the call, before the [finally] block:
    the state and the value about to be returned. *)
Definition settled (env : Env) (s1 : State)
    (c1 : Completion (option GeoDataFrame) GeoDataFrame)
  : State * option GeoDataFrame :=
  match c1 with
  | Normal g =>
      if (empty g || negb (has_geometry_column g))%bool
      then (report msg_no_geometry s1, None)
      else match reproject env g with
           | Ok g' => (s1, Some g')
           | Err e => (report (msg_load_failed e) s1, None)
           end
  | Return v => (s1, v)
  | Raise e => (report (msg_load_failed e) s1, None)
  end.

(** *** The script on the host

    Lines 14-37 and 172-206 again, now from what the visitor offers to the
    upload widget rather than from what the widget returned. *)

Section ScriptOnHost.

Variable h : Host.
Variable env : Env.

Let M := Stmt Page unit.

Definition call_load_data_on (uploaded_file : option UploadedFile)
  : M (option GeoDataFrame) :=
  fun pg =>
    let '(s, o) := load_data_on h env uploaded_file (page_world pg) in
    (mkPage (world s) (page_elements pg),
     match o with
     | Returned v => Normal v
     | Raised e => Raise e
     end).

(** Lines 28-32: the widget raises, or it is put on the page and its value
    handed back. *)
Definition st_file_uploader (label : string) (types : list string) (help : string)
    (offered : option UploadedFile) : M (option UploadedFile) :=
  let* uploaded_file := lift (file_uploader h types offered) in
  emit InSidebar (ElFileUploader label types help) >>
  pure uploaded_file.

(** Lines 14-37 *)
Definition script_head (offered : option UploadedFile) : M (option UploadedFile) :=
  emit InPage (ElPageConfig "Geoportal Sederhana" "🌍" "wide") >>
  emit InPage (ElTitle "🌍 Platform Visualisasi Data Geospasial Berbasis WebGIS") >>
  emit InPage (ElMarkdown "---") >>
  emit InSidebar (ElHeader "Konfigurasi Peta") >>
  let* uploaded_file :=
    st_file_uploader "Unggah File Geospasial" uploader_types
      "Format yang didukung: GeoJSON, KML, GPKG, atau Shapefile (ZIP)" offered in
  emit InSidebar
    (ElSelectbox "Pilih Base Map" ["OpenStreetMap"; "CartoDB Positron"; "Stamen Terrain"]) >>
  pure uploaded_file.

(** Lines 174-186 *)
Definition script_col1 (uploaded_file : option UploadedFile) (basemap : string)
  : M (option (option GeoDataFrame)) :=
  match uploaded_file with
  | Some _ =>
      emit InCol1 (ElSpinner "📥 Memuat data...") >>
      let* gdf := call_load_data_on uploaded_file in
      match gdf with
      | Some g =>
          emit InCol1
            (ElSuccess ("✅ Data berhasil dimuat (" +:+ pretty (nrows g) +:+ " fitur)")) >>
          let* m := call_create_map env gdf basemap in
          emit InCol1 (ElFolium m 750 500 "map")
      | None => page_warning "⚠️ Tidak ada data geospasial valid."
      end >>
      pure (Some gdf)
  | None =>
      let* m := call_create_map env None "OpenStreetMap" in
      emit InCol1 (ElFolium m 750 500 "default_map") >>
      pure None
  end.

(** One run of the script on the file the visitor offers and the basemap the
    selectbox returned. *)
Definition script (offered : option UploadedFile) (basemap : string) : M unit :=
  let* uploaded_file := script_head offered in
  let* gdf := script_col1 uploaded_file basemap in
  app_col2 env uploaded_file gdf >>
  app_foot.

Definition run_script (offered : option UploadedFile) (basemap : string)
    (w : World) : Page * Outcome unit :=
  let '(pg, c) := script offered basemap (mkPage w []) in
  (pg, match c with
       | Normal _ => Returned tt
       | Return _ => Returned tt
       | Raise e => Raised e
       end).

End ScriptOnHost.

(** What is on the page when the upload widget raises. *)
Definition page_before_uploader : list (Container * Element) :=
  [(InPage, ElPageConfig "Geoportal Sederhana" "🌍" "wide");
   (InPage, ElTitle "🌍 Platform Visualisasi Data Geospasial Berbasis WebGIS");
   (InPage, ElMarkdown "---");
   (InSidebar, ElHeader "Konfigurasi Peta")].

(** * Properties *)

(** ** The string primitives on examples *)

Example splitext_geojson : PyStr.splitext "kota.geojson" = ("kota", ".geojson").
Proof. reflexivity. Qed.
Example splitext_upper : PyStr.lower (snd (PyStr.splitext "Batas.Desa.ZIP")) = ".zip".
Proof. reflexivity. Qed.
Example splitext_hidden : PyStr.splitext ".shp" = (".shp", "").
Proof. reflexivity. Qed.
Example splitext_noext : PyStr.splitext "README" = ("README", "").
Proof. reflexivity. Qed.
Example splitext_dir_dot : PyStr.splitext "a.b/c" = ("a.b/c", "").
Proof. reflexivity. Qed.
Example join_plain : PyStr.join "/tmp/tmpab12" "jalan.shp" = "/tmp/tmpab12/jalan.shp".
Proof. reflexivity. Qed.
Example endswith_shp : PyStr.endswith (PyStr.lower "JALAN.SHP") ".shp" = true.
Proof. reflexivity. Qed.

(** ** Reasoning rules for statements *)

Section Rules.

Context {S R : Type}.

Lemma post_bind {A B} (m : Stmt S R A) (k : A -> Stmt S R B) s Q :
  post m s (fun s' c =>
              match c with
              | Normal a => post (k a) s' Q
              | Return v => Q s' (Return v)
              | Raise e => Q s' (Raise e)
              end) ->
  post (bind m k) s Q.
Proof. unfold post, bind. destruct (m s) as [s' [a|v|e]]; simpl; auto. Qed.

Lemma post_try_except {A} (body : Stmt S R A) handler s Q :
  post body s (fun s' c =>
                 match c with
                 | Raise e => post (handler e) s' Q
                 | _ => Q s' c
                 end) ->
  post (try_except body handler) s Q.
Proof. unfold post, try_except. destruct (body s) as [s' [a|v|e]]; simpl; auto. Qed.

Lemma post_try_finally {A} (body : Stmt S R A) fin s Q :
  post body s (fun s1 c =>
                 post fin s1 (fun s2 c' =>
                                match c' with
                                | Normal _ => Q s2 c
                                | Return v => Q s2 (Return v)
                                | Raise e => Q s2 (Raise e)
                                end)) ->
  post (try_finally body fin) s Q.
Proof.
  unfold post, try_finally. destruct (body s) as [s1 c]; simpl.
  destruct (fin s1) as [s2 [a|v|e]]; simpl; auto.
Qed.

Lemma post_pure {A} (a : A) s (Q : S -> Completion R A -> Prop) :
  Q s (Normal a) -> post (pure a) s Q.
Proof. auto. Qed.

Lemma post_get s (Q : S -> Completion R S -> Prop) :
  Q s (Normal s) -> post get s Q.
Proof. auto. Qed.

Lemma post_modify f s (Q : S -> Completion R unit -> Prop) :
  Q (f s) (Normal tt) -> post (modify f) s Q.
Proof. auto. Qed.

Lemma post_return {A} v s (Q : S -> Completion R A -> Prop) :
  Q s (Return v) -> post (py_return v) s Q.
Proof. auto. Qed.

Lemma post_raise {A} e s (Q : S -> Completion R A -> Prop) :
  Q s (Raise e) -> post (py_raise e) s Q.
Proof. auto. Qed.

Lemma post_mono {A} (m : Stmt S R A) s (Q Q' : S -> Completion R A -> Prop) :
  post m s Q -> (forall s' c, Q s' c -> Q' s' c) -> post m s Q'.
Proof. unfold post. auto. Qed.

Lemma post_run {A} (m : Stmt S R A) s s' c Q :
  post m s Q -> m s = (s', c) -> Q s' c.
Proof. unfold post. intros H E. rewrite E in H. exact H. Qed.

End Rules.

#[local] Arguments post : simpl never.
#[local] Arguments scratch_name : simpl never.
#[local] Arguments collect_shp : simpl never.
#[local] Arguments os_walk : simpl never.
#[local] Arguments walk_dir : simpl never.

(** Symbolic execution of a statement under [post]: one rule per statement
    form, a case split where the file system or a library decides. *)
Ltac wp_step :=
  lazymatch goal with
  | |- post (bind _ _) _ _ => apply post_bind
  | |- post (try_except _ _) _ _ => apply post_try_except
  | |- post (try_finally _ _) _ _ => apply post_try_finally
  | |- post (lift ?r) _ _ => destruct r eqn:?; unfold lift
  | |- post (pure _) _ _ => apply post_pure
  | |- post get _ _ => apply post_get
  | |- post (modify _) _ _ => apply post_modify
  | |- post (py_return _) _ _ => apply post_return
  | |- post (py_raise _) _ _ => apply post_raise
  | |- post (let '(_, _) := ?x in _) _ _ => destruct x eqn:?
  | |- post (match ?x with _ => _ end) _ _ => destruct x eqn:?
  | |- post (if ?b then _ else _) _ _ => destruct b eqn:?
  | |- post (NamedTemporaryFile _ _) _ _ => unfold NamedTemporaryFile
  | |- post (tmp_write _ _ _) _ _ => unfold tmp_write
  | |- post (mkdtemp _) _ _ => unfold mkdtemp
  | |- post (zip_extractall _ _ _) _ _ => unfold zip_extractall
  | |- post (gpd_read_file _ _ _) _ _ => unfold gpd_read_file
  | |- post (st_error _) _ _ => unfold st_error
  | |- post (os_path_exists _) _ _ => unfold os_path_exists
  | |- post (os_remove _) _ _ => unfold os_remove
  | |- post (shutil_rmtree _) _ _ => unfold shutil_rmtree
  | |- post (assign_tmp_path _) _ _ => unfold assign_tmp_path
  | |- post (assign_extract_dir _) _ _ => unfold assign_extract_dir
  | |- post (save_upload _ _ _) _ _ => unfold save_upload
  | |- post (read_archive _ _) _ _ => unfold read_archive
  | |- post (read_upload _ _) _ _ => unfold read_upload
  | |- post (normalize _ _) _ _ => unfold normalize
  | |- post (load_data_try _ _) _ _ => unfold load_data_try
  | |- post (load_data_except _) _ _ => unfold load_data_except
  | |- post (create_map_body _ _ _) _ _ => unfold create_map_body
  | |- post (map_center _ _) _ _ => unfold map_center
  | |- post (add_data_layer _ _ _) _ _ => unfold add_data_layer
  | |- post (dict_getitem _ _) _ _ => unfold dict_getitem
  | |- post (st_warning _) _ _ => unfold st_warning
  end.

Ltac wp := repeat (wp_step; simpl).

(** ** Scratch names and the state the [finally] block finds *)

Lemma append_nonempty (a b : string) : b <> "" -> a +:+ b <> "".
Proof. destruct a; simpl; [auto | discriminate]. Qed.

Lemma truthy_scratch_name (d r x : string) : truthy (Some (scratch_name d r x)) = true.
Proof.
  unfold truthy, scratch_name.
  destruct (String.eqb_spec (d +:+ "/tmp" +:+ r +:+ x) "") as [E|]; [|done].
  exfalso. eapply append_nonempty; [|exact E]. discriminate.
Qed.

Lemma post_eq {S R A} (m : Stmt S R A) s x :
  post m s (fun s' c => (s', c) = x) -> m s = x.
Proof. unfold post. by destruct (m s). Qed.

Lemma finally_run s : Inv s -> load_data_finally s = (cleaned s, Normal tt).
Proof.
  intros [Hp Hd]. apply post_eq.
  unfold load_data_finally, cleaned, removal_events.
  destruct s as [[fsys tr] [p|] [d|]]; simpl in *.
  all: try (destruct (Hp p eq_refl) as [Tp [data Fp]]; unfold truthy in Tp).
  all: try (destruct (Hd d eq_refl) as [Td [es Fd]]; unfold truthy in Td).
  all: try assert (p <> d) by congruence.
  all: wp; simpl in *; simplify_map_eq.
  all: try (exfalso; eauto using mk_is_Some; fail).
  all: try (unfold set_world, log, set_fs; simpl; rewrite <- ?app_assoc, ?app_nil_r; reflexivity).
  all: try match goal with H : bool_decide _ = false |- _ =>
         apply bool_decide_eq_false_1 in H; exfalso; apply H; simplify_map_eq; eauto end.
Qed.

Lemma Inv_report msg s : Inv s -> Inv (report msg s).
Proof. by destruct s as [[? ?] ? ?]. Qed.

(** Facts about paths hidden in lookups of freshly created names. *)
Ltac fresh_paths :=
  repeat match goal with
         | H : <[_:=_]> _ !! _ = None |- _ =>
             apply lookup_insert_None in H; destruct H
         end.

Ltac norm_state :=
  unfold set_world, set_fs, log, report in *; simpl in *;
  rewrite <- ?app_assoc; simpl.

Ltac trace_eq :=
  simpl; rewrite <- ?app_assoc; simpl;
  first [reflexivity | symmetry; apply app_nil_r].

(** What [read_upload] leaves behind, however it completes. *)
Lemma read_upload_post env up w :
  post (read_upload env up) (mkState w None None)
    (fun s c =>
       Inv s /\
       exists evs, trace (world s) = trace w ++ evs /\
         removals evs = [] /\
         match c with
         | Normal _ | Raise _ => errors evs = []
         | Return v => v = None /\ exists m, errors evs = [m]
         end).
Proof.
  wp.
  all: fresh_paths; simplify_map_eq.
  all: split;
    [ unfold Inv; simpl; split; intros ? ?; simplify_eq;
      try (split; [apply truthy_scratch_name|]); simplify_map_eq; eauto
    | eexists; split; [trace_eq | simpl; eauto] ].
Qed.

Lemma errors_app a b : errors (a ++ b) = errors a ++ errors b.
Proof. apply flat_map_app. Qed.

Lemma removals_app a b : removals (a ++ b) = removals a ++ removals b.
Proof. apply flat_map_app. Qed.

Lemma errors_removal_events s : errors (removal_events s) = [].
Proof. unfold removal_events. by destruct (tmp_path s), (extract_dir s). Qed.

Lemma removals_removal_events s : removals (removal_events s) = removal_events s.
Proof. unfold removal_events. by destruct (tmp_path s), (extract_dir s). Qed.

Lemma normalize_post env g s :
  post (normalize env g) s
    (fun s' c =>
       if (empty g || negb (has_geometry_column g))%bool
       then s' = report msg_no_geometry s /\ c = Return None
       else match reproject env g with
            | Ok g' => s' = s /\ c = Return (Some g')
            | Err e => s' = s /\ c = Raise e
            end).
Proof. wp; done. Qed.

(** [load_data] on an upload, by how [read_upload] completed. *)
Lemma load_data_cases env up w s1 c1 :
  read_upload env up (mkState w None None) = (s1, c1) ->
  load_data env (Some up) w =
    match c1 with
    | Normal g =>
        if (empty g || negb (has_geometry_column g))%bool
        then (cleaned (report msg_no_geometry s1), Returned None)
        else match reproject env g with
             | Ok g' => (cleaned s1, Returned (Some g'))
             | Err e => (cleaned (report (msg_load_failed e) s1), Returned None)
             end
    | Return v => (cleaned s1, Returned v)
    | Raise e => (cleaned (report (msg_load_failed e) s1), Returned None)
    end.
Proof.
  intros E.
  pose proof (post_run _ _ _ _ _ (read_upload_post env up w) E) as [HI _].
  unfold load_data, try_finally, try_except, load_data_try, bind. rewrite E.
  destruct c1 as [g|v|e].
  - pose proof (normalize_post env g s1) as HN. unfold post in HN.
    destruct (normalize env g s1) as [s2 c2]; simpl in HN.
    destruct (empty g || negb (has_geometry_column g))%bool.
    + destruct HN as [-> ->]. by rewrite finally_run by by apply Inv_report.
    + destruct (reproject env g) as [g'|e]; destruct HN as [-> ->].
      * by rewrite finally_run.
      * unfold load_data_except, bind, st_error, modify, py_return; simpl.
        fold (report (msg_load_failed e) s1).
        by rewrite finally_run by by apply Inv_report.
  - by rewrite finally_run.
  - unfold load_data_except, bind, st_error, modify, py_return; simpl.
    fold (report (msg_load_failed e) s1).
    by rewrite finally_run by by apply Inv_report.
Qed.

(** ** Walking the extracted tree *)

Lemma collect_shp_app w1 w2 :
  collect_shp (w1 ++ w2) = collect_shp w1 ++ collect_shp w2.
Proof. unfold collect_shp. apply flat_map_app. Qed.

Lemma Entry_nested_ind (P : Entry -> Prop) :
  (forall n d, P (File n d)) ->
  (forall n ch, Forall P ch -> P (Dir n ch)) ->
  forall e, P e.
Proof.
  intros Hf Hd. fix IH 1. intros [n d|n ch]; [apply Hf|].
  apply Hd. induction ch as [|e ch IHch]; constructor; [apply IH | exact IHch].
Qed.

Lemma collect_shp_cons root dirs files w :
  collect_shp ((root, dirs, files) :: w) =
  flat_map (accepted root) files ++ collect_shp w.
Proof. reflexivity. Qed.

Lemma children_nil root ch :
  Forall walk_nil_at ch ->
  flat_map (accepted root) (filenames ch) = [] /\
  collect_shp (flat_map (walk_entry root) ch) = [] <->
  existsb has_shp ch = false.
Proof.
  induction 1 as [|e ch He _ IH]; [done|].
  change (existsb has_shp (e :: ch)) with (has_shp e || existsb has_shp ch)%bool.
  rewrite orb_false_iff, <- IH. destruct e as [n d|n sub].
  - change (filenames (File n d :: ch)) with (n :: filenames ch).
    change (flat_map (walk_entry root) (File n d :: ch))
      with (flat_map (walk_entry root) ch).
    change (flat_map (accepted root) (n :: filenames ch))
      with (accepted root n ++ flat_map (accepted root) (filenames ch)).
    rewrite app_nil. unfold accepted at 1. simpl has_shp.
    destruct (PyStr.endswith (PyStr.lower n) ".shp"); [|tauto].
    split; [intros [[? _] _]; discriminate | intros [? _]; discriminate].
  - change (filenames (Dir n sub :: ch)) with (filenames ch).
    change (flat_map (walk_entry root) (Dir n sub :: ch))
      with (walk_entry root (Dir n sub) ++ flat_map (walk_entry root) ch).
    rewrite collect_shp_app, app_nil, (He root). tauto.
Qed.

Lemma walk_entry_nil e : walk_nil_at e.
Proof.
  induction e as [n d|n ch IH] using Entry_nested_ind; intros top; [done|].
  change (walk_entry top (Dir n ch))
    with ((PyStr.join top n, dirnames ch, filenames ch)
            :: flat_map (walk_entry (PyStr.join top n)) ch).
  rewrite collect_shp_cons, app_nil.
  apply (children_nil (PyStr.join top n) ch IH).
Qed.

(** [shp_files] is empty exactly when the extracted tree holds no accepted
    file at any depth. *)
Lemma os_walk_nil top es :
  collect_shp (os_walk top es) = [] <-> existsb has_shp es = false.
Proof.
  unfold os_walk. rewrite collect_shp_cons, app_nil.
  apply children_nil. apply Forall_forall. intros e _. apply walk_entry_nil.
Qed.

(** Two directories and nothing else at the top: what is collected is what
    the first listed holds, then what the second holds. *)
Lemma os_walk_two top x cx y cy :
  collect_shp (os_walk top [Dir x cx; Dir y cy]) =
  collect_shp (walk_entry top (Dir x cx)) ++ collect_shp (walk_entry top (Dir y cy)).
Proof.
  unfold os_walk. rewrite collect_shp_cons.
  change (filenames [Dir x cx; Dir y cy]) with (@nil string).
  change (flat_map (walk_entry top) [Dir x cx; Dir y cy])
    with (walk_entry top (Dir x cx) ++ walk_entry top (Dir y cy) ++ []).
  rewrite app_nil_r. apply collect_shp_app.
Qed.

(** ** Particular runs of [read_upload] *)

Lemma read_upload_write_fault env up w r e :
  tmpfile_rand env = Ok r ->
  fs w !! scratch_name (gettempdir env) r (upload_suffix up) = None ->
  write_fault env (getbuffer up) = Some e ->
  read_upload env up (mkState w None None) =
    (mkState
       (mkWorld (<[scratch_name (gettempdir env) r (upload_suffix up) := RegFile []]> (fs w))
                (trace w ++ [EvCreate (scratch_name (gettempdir env) r (upload_suffix up))]))
       None None,
     Raise e).
Proof.
  intros Hr Hf Hw. apply post_eq. wp; simplify_eq; done.
Qed.

Lemma read_upload_single env up w r :
  upload_suffix up <> ".zip" ->
  tmpfile_rand env = Ok r ->
  fs w !! scratch_name (gettempdir env) r (upload_suffix up) = None ->
  write_fault env (getbuffer up) = None ->
  let p := scratch_name (gettempdir env) r (upload_suffix up) in
  read_upload env up (mkState w None None) =
    (mkState (mkWorld (saved_fs up w p) (trace w ++ [EvCreate p; EvRead p None]))
             (Some p) None,
     completion_of (read_file env (saved_fs up w p) p None)).
Proof.
  intros Hs Hr Hf Hw p. apply post_eq. wp; simplify_eq.
  all: try (apply String.eqb_eq in Heqb; done).
  all: unfold saved_fs, p; simpl.
  all: match goal with H : read_file _ _ _ _ = _ |- _ => rewrite H end.
  all: norm_state; done.
Qed.

Lemma read_upload_archive env up w r r' entries :
  extracts env up w r r' entries ->
  let p := scratch_name (gettempdir env) r ".zip" in
  let d := scratch_name (gettempdir env) r' "" in
  let fs1 := extracted_fs env up w r r' entries in
  read_upload env up (mkState w None None) =
    match collect_shp (os_walk d entries) with
    | [] =>
        (mkState (mkWorld fs1 (trace w ++ [EvCreate p; EvMkdir d; EvError msg_no_shp]))
                 (Some p) (Some d),
         Return None)
    | shp :: _ =>
        (mkState (mkWorld fs1 (trace w ++ [EvCreate p; EvMkdir d;
                                           EvRead shp (Some "ESRI Shapefile")]))
                 (Some p) (Some d),
         completion_of (read_file env fs1 shp (Some "ESRI Shapefile")))
    end.
Proof.
  intros (Hs & Hr & Hf & Hw & Hr' & Hne & Hf' & Hx) p d fs1.
  apply post_eq. unfold read_upload. rewrite Hs. wp; simplify_eq.
  all: fresh_paths; unfold walk_dir in *; simplify_map_eq; try congruence.
  all: rewrite Hx in *; simplify_eq.
  all: unfold fs1, extracted_fs, p, d.
  all: match goal with H : collect_shp _ = _ |- _ => rewrite H end.
  all: try match goal with H : read_file _ _ _ _ = _ |- _ => rewrite H end.
  all: norm_state; done.
Qed.

(** ** [load_data] as a whole *)

Lemma has_geometry_column_In g :
  has_geometry_column g = true <-> In "geometry" (columns g).
Proof.
  unfold has_geometry_column. rewrite existsb_exists. split.
  - intros (c & Hc & E). apply String.eqb_eq in E. by subst.
  - intros H. exists "geometry". split; [done|]. apply String.eqb_refl.
Qed.

Lemma empty_false g : empty g = false <-> nrows g <> 0 /\ series g <> [].
Proof.
  unfold empty. rewrite orb_false_iff, !Nat.eqb_neq.
  destruct (series g); simpl; intuition congruence.
Qed.

(** A returned frame is the reprojection of a loaded frame that passed
    validation. *)
Lemma load_data_Some env up w s g :
  load_data env (Some up) w = (s, Returned (Some g)) ->
  exists g0, loaded_frame env up w = Some g0 /\
             empty g0 = false /\ has_geometry_column g0 = true /\
             reproject env g0 = Ok g.
Proof.
  destruct (read_upload env up (mkState w None None)) as [s1 c1] eqn:E.
  pose proof (post_run _ _ _ _ _ (read_upload_post env up w) E) as (_ & evs & _ & _ & Hc).
  rewrite (load_data_cases _ _ _ _ _ E). unfold loaded_frame. rewrite E.
  destruct c1 as [g0|v|e]; [| destruct Hc as [-> _]; intros; simplify_eq | intros; simplify_eq].
  destruct (empty g0) eqn:He; simpl; [intros; simplify_eq|].
  destruct (has_geometry_column g0) eqn:Hg; simpl; [|intros; simplify_eq].
  destruct (reproject env g0) as [g'|e] eqn:Hr; intros; simplify_eq. eauto.
Qed.

(** Every present upload ends in a return, the scratch objects that the locals
    name are gone, each removed once, and a failure reports one message. *)
Lemma load_data_summary env up w :
  exists s v evs,
    load_data env (Some up) w = (s, Returned v) /\
    trace (world s) = trace w ++ evs /\
    removals evs = removal_events s /\
    (forall p, tmp_path s = Some p -> fs (world s) !! p = None) /\
    (forall d, extract_dir s = Some d -> fs (world s) !! d = None) /\
    match v with
    | Some _ => errors evs = []
    | None => exists msg, errors evs = [msg]
    end.
Proof.
  destruct (read_upload env up (mkState w None None)) as [s1 c1] eqn:E.
  pose proof (post_run _ _ _ _ _ (read_upload_post env up w) E)
    as (HI & evs & Ht & Hrm & Hc).
  rewrite (load_data_cases _ _ _ _ _ E).
  assert (Hfs : forall s, Inv s ->
            (forall p, tmp_path (cleaned s) = Some p -> fs (world (cleaned s)) !! p = None) /\
            (forall d, extract_dir (cleaned s) = Some d -> fs (world (cleaned s)) !! d = None)).
  { intros [[fsys tr] tp ed] [Hp Hd]; simpl in *. split; intros q ->; simpl.
    - destruct ed as [d|]; simpl; [|by rewrite lookup_delete_eq].
      destruct (Hp q eq_refl) as [_ [? Fq]], (Hd d eq_refl) as [_ [? Fd]].
      rewrite lookup_delete_ne by congruence. by rewrite lookup_delete_eq.
    - by rewrite lookup_delete_eq. }
  assert (Hclean : forall s extra (v : option GeoDataFrame),
            Inv s -> trace (world s) = trace w ++ evs ++ extra ->
            removals extra = [] ->
            match v with Some _ => errors (evs ++ extra) = []
                    | None => exists msg, errors (evs ++ extra) = [msg] end ->
            exists s' v' evs',
              (cleaned s, Returned v) = (s', Returned v') /\
              trace (world s') = trace w ++ evs' /\
              removals evs' = removal_events s' /\
              (forall p, tmp_path s' = Some p -> fs (world s') !! p = None) /\
              (forall d, extract_dir s' = Some d -> fs (world s') !! d = None) /\
              match v' with Some _ => errors evs' = []
                       | None => exists msg, errors evs' = [msg] end).
  { intros s extra v Hs Htr Hre Hv.
    exists (cleaned s), v, (evs ++ extra ++ removal_events s).
    destruct (Hfs s Hs) as [? ?]. repeat split; try done.
    - simpl. rewrite Htr. by rewrite <- !app_assoc.
    - rewrite !removals_app, Hrm, Hre, removals_removal_events. by destruct s.
    - rewrite app_assoc, errors_app, errors_removal_events, app_nil_r. exact Hv. }
  destruct c1 as [g0|v|e].
  - destruct (empty g0 || negb (has_geometry_column g0))%bool.
    + apply (Hclean (report msg_no_geometry s1) [EvError msg_no_geometry] None);
        [by apply Inv_report | destruct s1 as [[? ?] ? ?]; simpl in *; by rewrite Ht, <- app_assoc
        | done | rewrite errors_app, Hc; simpl; eauto].
    + destruct (reproject env g0) as [g|e].
      * apply (Hclean s1 [] (Some g)); rewrite ?app_nil_r; try done.
      * apply (Hclean (report (msg_load_failed e) s1) [EvError (msg_load_failed e)] None);
          [by apply Inv_report | destruct s1 as [[? ?] ? ?]; simpl in *; by rewrite Ht, <- app_assoc
          | done | rewrite errors_app, Hc; simpl; eauto].
  - destruct Hc as [-> Hm]. apply (Hclean s1 [] None); rewrite ?app_nil_r; try done.
  - apply (Hclean (report (msg_load_failed e) s1) [EvError (msg_load_failed e)] None);
      [by apply Inv_report | destruct s1 as [[? ?] ? ?]; simpl in *; by rewrite Ht, <- app_assoc
      | done | rewrite errors_app, Hc; simpl; eauto].
Qed.

(** ** The reference environment meets the geopandas contract *)

Lemma ref_env_set_crs_assigns a wf fr : set_crs_assigns (ref_env a wf fr).
Proof. intros g code g' Hc. simpl. unfold ref_set_crs. rewrite Hc. congruence. Qed.

Lemma ref_env_to_crs_result a wf fr : to_crs_result (ref_env a wf fr).
Proof.
  intros g code g'. simpl. unfold ref_to_crs.
  destruct (crs g) as [c|] eqn:Hc; [|discriminate].
  destruct (decide (c = EPSG code)) as [->|_]; intros [= <-]; [by repeat split|].
  repeat split. unfold columns, map_geometry. cbn [series].
  rewrite map_map. apply map_ext. intros [n cells].
  by destruct (String.eqb "geometry" (fst (n, cells))).
Qed.

Lemma ref_env_to_crs_same a wf fr : to_crs_same (ref_env a wf fr).
Proof.
  intros g code Hc. simpl. unfold ref_to_crs. rewrite Hc.
  by destruct (decide (EPSG code = EPSG code)).
Qed.

(** ** The properties of the specification *)

(** C1. Whenever [load_data] returns a data set, its reference system is
    WGS84 (EPSG:4326): an unlabeled frame goes through [set_crs], a labelled
    one through [to_crs], both with [epsg=4326]. *)
Theorem load_data_crs_is_wgs84 env uploaded_file w s g :
  set_crs_assigns env -> to_crs_result env ->
  load_data env uploaded_file w = (s, Returned (Some g)) ->
  crs g = Some WGS84.
Proof.
  intros Hset Hto H. destruct uploaded_file as [up|]; [|discriminate].
  apply load_data_Some in H as (g0 & _ & _ & _ & Hr). unfold reproject in Hr.
  destruct (crs g0) eqn:Hc.
  - by apply Hto in Hr as [-> _].
  - by rewrite (Hset _ _ _ Hc Hr).
Qed.

Lemma load_data_crs_is_wgs84_witness :
  let env := ref_env ([], None) None (Ok jakarta_utm) in
  snd (load_data env (Some upload_geojson) world0)
    = Returned (Some (mkGDF 1 (map_geometry (swap_xy (EPSG 32748) 4326) jakarta_utm)
                            (Some WGS84))) /\
  crs (mkGDF 1 (map_geometry (swap_xy (EPSG 32748) 4326) jakarta_utm) (Some WGS84))
    = Some WGS84.
Proof.
  intros env. split; [by vm_compute|].
  apply (load_data_crs_is_wgs84 env (Some upload_geojson) world0
           (fst (load_data env (Some upload_geojson) world0)) _
           (ref_env_set_crs_assigns _ _ _) (ref_env_to_crs_result _ _ _)).
  by vm_compute.
Defined.

(** C4. A loaded data set that declares no reference system is labelled
    WGS84 and nothing else changes: the returned coordinates are the loaded
    coordinates. *)
Theorem unlabeled_frame_keeps_coordinates env up w g0 s g :
  set_crs_assigns env ->
  loaded_frame env up w = Some g0 ->
  crs g0 = None ->
  load_data env (Some up) w = (s, Returned (Some g)) ->
  crs g = Some WGS84 /\ geometry g = geometry g0 /\ series g = series g0.
Proof.
  intros Hset Hl Hc H.
  apply load_data_Some in H as (g1 & Hl' & _ & _ & Hr).
  rewrite Hl in Hl'. injection Hl' as <-.
  unfold reproject in Hr. rewrite Hc in Hr.
  by rewrite (Hset _ _ _ Hc Hr).
Qed.

Lemma unlabeled_frame_keeps_coordinates_witness :
  loaded_frame (ref_env ([], None) None (Ok jakarta)) upload_geojson world0 = Some jakarta /\
  crs jakarta_wgs84 = Some WGS84 /\
  geometry jakarta_wgs84 = geometry jakarta /\
  series jakarta_wgs84 = series jakarta.
Proof.
  split; [by vm_compute|].
  apply (unlabeled_frame_keeps_coordinates
           (ref_env ([], None) None (Ok jakarta)) upload_geojson world0 jakarta
           (fst (load_data (ref_env ([], None) None (Ok jakarta))
                   (Some upload_geojson) world0))
           jakarta_wgs84 (ref_env_set_crs_assigns _ _ _)).
  - by vm_compute.
  - reflexivity.
  - by vm_compute.
Defined.

(** C5. A loaded data set that already declares WGS84 is returned as it was
    loaded, coordinates included ([to_crs] to the declared system hands the
    frame back). *)
Theorem wgs84_frame_returned_unchanged env up w g0 s g :
  to_crs_same env ->
  loaded_frame env up w = Some g0 ->
  crs g0 = Some WGS84 ->
  load_data env (Some up) w = (s, Returned (Some g)) ->
  g = g0 /\ geometry g = geometry g0.
Proof.
  intros Hsame Hl Hc H.
  apply load_data_Some in H as (g1 & Hl' & _ & _ & Hr).
  rewrite Hl in Hl'. injection Hl' as <-.
  unfold reproject in Hr. rewrite Hc in Hr.
  rewrite (Hsame _ _ Hc) in Hr. injection Hr as <-. done.
Qed.

Lemma wgs84_frame_returned_unchanged_witness :
  loaded_frame (ref_env ([], None) None (Ok jakarta_wgs84)) upload_geojson world0
    = Some jakarta_wgs84 /\
  jakarta_wgs84 = jakarta_wgs84 /\
  geometry jakarta_wgs84 = [Shape (Point 106.8272%float (-6.1754)%float)].
Proof.
  split; [by vm_compute|].
  destruct (wgs84_frame_returned_unchanged
              (ref_env ([], None) None (Ok jakarta_wgs84)) upload_geojson world0
              jakarta_wgs84
              (fst (load_data (ref_env ([], None) None (Ok jakarta_wgs84))
                      (Some upload_geojson) world0))
              jakarta_wgs84 (ref_env_to_crs_same _ _ _)) as [H1 H2].
  - by vm_compute.
  - reflexivity.
  - by vm_compute.
  - split; [exact H1 | exact H2].
Defined.



Lemma cleaned_archive fsys tr p d (evs : list Event) :
  cleaned (mkState (mkWorld fsys (tr ++ evs)) (Some p) (Some d)) =
  mkState (mkWorld (delete d (delete p fsys)) (tr ++ evs ++ [EvRemove p; EvRmtree d]))
          (Some p) (Some d).
Proof. unfold cleaned, removal_events. simpl. by rewrite <- app_assoc. Qed.

Lemma cleaned_single fsys tr p (evs : list Event) :
  cleaned (mkState (mkWorld fsys (tr ++ evs)) (Some p) None) =
  mkState (mkWorld (delete p fsys) (tr ++ evs ++ [EvRemove p])) (Some p) None.
Proof. unfold cleaned, removal_events. simpl. by rewrite <- app_assoc. Qed.


Lemma ref_env_extracts entries fr :
  extracts (ref_env (entries, None) None fr) upload_zip world0
    "k3v9x2ab" "q7w1e5zz" entries.
Proof. repeat split; by vm_compute. Qed.


(** C3, as the code has it. Of the accepted files of an extracted archive,
    [load_data] reads the one that [os.walk] meets first, where each directory
    is traversed in the order the operating system lists it; with two
    directories at the top, each holding a bundle, that is a file of the
    directory listed first. *)
Theorem first_listed_shp_selected env up w r r' entries shp rest :
  extracts env up w r r' entries ->
  collect_shp (os_walk (scratch_name (gettempdir env) r' "") entries) = shp :: rest ->
  (exists s o evs,
     load_data env (Some up) w = (s, o) /\
     trace (world s) = trace w ++ evs /\
     read_calls evs = [(shp, Some "ESRI Shapefile")]) /\
  (forall x cx y cy,
     entries = [Dir x cx; Dir y cy] ->
     has_shp (Dir x cx) = true ->
     In shp (collect_shp (walk_entry (scratch_name (gettempdir env) r' "") (Dir x cx)))).
Proof.
  intros Hx Hsel. split.
  - pose proof (read_upload_archive _ _ _ _ _ _ Hx) as E. simpl in E.
    rewrite Hsel in E. rewrite (load_data_cases _ _ _ _ _ E).
    destruct (read_file env _ shp _) as [g|e]; simpl.
    + destruct (empty g || negb (has_geometry_column g))%bool;
        [|destruct (reproject env g)].
      all: unfold report, set_world, log; simpl; rewrite <- ?app_assoc;
        rewrite cleaned_archive; do 3 eexists; split; [reflexivity|];
        split; [simpl; reflexivity|reflexivity].
    + unfold report, set_world, log; simpl; rewrite <- ?app_assoc.
      rewrite cleaned_archive. do 3 eexists. split; [reflexivity|].
      split; [simpl; reflexivity|reflexivity].
  - intros x cx y cy -> Hhas. rewrite os_walk_two in Hsel.
    destruct (collect_shp (walk_entry (scratch_name (gettempdir env) r' "") (Dir x cx)))
      as [|q qs] eqn:Hq.
    + apply (walk_entry_nil (Dir x cx)) in Hq. congruence.
    + injection Hsel as -> _. by left.
Qed.

Lemma first_listed_shp_selected_witness :
  read_calls (trace (world (fst (load_data
      (ref_env (archive_ab, None) None (Ok jakarta_utm)) (Some upload_zip) world0))))
    = [("/tmp/tmpq7w1e5zz/a/jalan.shp", Some "ESRI Shapefile")] /\
  In "/tmp/tmpq7w1e5zz/a/jalan.shp"
     (collect_shp (walk_entry "/tmp/tmpq7w1e5zz" (Dir "a" (bundle "jalan")))).
Proof.
  destruct (first_listed_shp_selected
              (ref_env (archive_ab, None) None (Ok jakarta_utm))
              upload_zip world0 "k3v9x2ab" "q7w1e5zz" archive_ab
              "/tmp/tmpq7w1e5zz/a/jalan.shp" ["/tmp/tmpq7w1e5zz/b/sungai.shp"]
              (ref_env_extracts _ _)) as [(s & o & evs & Hl & Ht & Hr) Hin].
  - by vm_compute.
  - split.
    + rewrite Hl. simpl. rewrite Ht. exact Hr.
    + apply (Hin "a" (bundle "jalan") "b" (bundle "sungai")); reflexivity.
Defined.

(** C3, as stated, fails: the same two bundles, presented by an operating
    system that lists [b] before [a], and the file read is the one under
    [b/]. *)
Lemma listing_b_first_selects_b :
  read_calls (trace (world (fst (load_data
      (ref_env (archive_ba, None) None (Ok jakarta_utm)) (Some upload_zip) world0))))
    = [("/tmp/tmpq7w1e5zz/b/sungai.shp", Some "ESRI Shapefile")] /\
  Permutation archive_ab archive_ba /\
  has_shp (Dir "a" (bundle "jalan")) = true /\
  has_shp (Dir "b" (bundle "sungai")) = true.
Proof.
  split; [by vm_compute|]. split; [apply perm_swap|]. split; reflexivity.
Qed.

(** C2 fails on the code.  The scratch file exists from the moment
    [NamedTemporaryFile] returns, but [tmp_path] is assigned only after the
    write; when the write raises, the [finally] block finds [tmp_path] still
    [None] and removes nothing: the file stays. *)
Theorem scratch_file_left_when_write_fails env up w r e :
  tmpfile_rand env = Ok r ->
  fs w !! scratch_name (gettempdir env) r (upload_suffix up) = None ->
  write_fault env (getbuffer up) = Some e ->
  exists s,
    load_data env (Some up) w = (s, Returned None) /\
    fs (world s) !! scratch_name (gettempdir env) r (upload_suffix up)
      = Some (RegFile []) /\
    trace (world s) =
      trace w ++ [EvCreate (scratch_name (gettempdir env) r (upload_suffix up));
                  EvError (msg_load_failed e)].
Proof.
  intros Hr Hf Hw.
  pose proof (read_upload_write_fault _ _ _ _ _ Hr Hf Hw) as E.
  rewrite (load_data_cases _ _ _ _ _ E).
  eexists. split; [reflexivity|]. unfold cleaned, removal_events, report. simpl.
  split; [apply lookup_insert_eq|]. by rewrite app_nil_r, <- app_assoc.
Qed.

Lemma scratch_file_left_when_write_fails_witness :
  exists s,
    load_data (ref_env ([], None) (Some "[Errno 28] No space left on device") (Ok jakarta))
      (Some upload_geojson) world0 = (s, Returned None) /\
    fs (world s) !! "/tmp/tmpk3v9x2ab.geojson" = Some (RegFile []) /\
    trace (world s) =
      [EvCreate "/tmp/tmpk3v9x2ab.geojson";
       EvError (msg_load_failed "[Errno 28] No space left on device")].
Proof.
  apply (scratch_file_left_when_write_fails
           (ref_env ([], None) (Some "[Errno 28] No space left on device") (Ok jakarta))
           upload_geojson world0 "k3v9x2ab" "[Errno 28] No space left on device");
    by vm_compute.
Defined.

(** ** [create_map] *)

Lemma TILE_MAP_default :
  TILE_MAP !! "OpenStreetMap"
  = Some (mkTile "OpenStreetMap" "© OpenStreetMap contributors").
Proof. reflexivity. Qed.

Lemma TILE_MAP_get basemap :
  dict_get TILE_MAP basemap (mkTile "OpenStreetMap" "© OpenStreetMap contributors")
  = expected_tiles basemap.
Proof.
  unfold dict_get, expected_tiles, TILE_MAP.
  destruct (String.eqb_spec basemap "CartoDB Positron") as [->|H1]; [reflexivity|].
  destruct (String.eqb_spec basemap "Stamen Terrain") as [->|H2]; [reflexivity|].
  destruct (decide (basemap = "OpenStreetMap")) as [->|H3]; [reflexivity|].
  rewrite !lookup_insert_ne by done. by rewrite lookup_empty.
Qed.

(** C10. [create_map] returns a map for every basemap string: with the tile
    source and attribution of the table's entry of that name when it is one of
    the three keys, with those of the OpenStreetMap entry otherwise; the lookup
    never fails. *)
Theorem create_map_basemap_total env gdf basemap w :
  exists w' m,
    create_map env gdf basemap w = (w', Returned (Some m)) /\
    mkTile (map_tiles m) (map_attr m) = expected_tiles basemap /\
    TILE_MAP !! "OpenStreetMap" = Some (expected_tiles "OpenStreetMap") /\
    TILE_MAP !! "CartoDB Positron" = Some (expected_tiles "CartoDB Positron") /\
    TILE_MAP !! "Stamen Terrain" = Some (expected_tiles "Stamen Terrain") /\
    dom TILE_MAP = {["OpenStreetMap"; "CartoDB Positron"; "Stamen Terrain"]}.
Proof.
  assert (Hp : post (create_map_body env gdf basemap) w
                 (fun w' c => exists m, c = Return m /\
                    mkTile (map_tiles m) (map_attr m) = expected_tiles basemap)).
  { wp; try (rewrite TILE_MAP_default in *; simplify_eq).
    all: eexists; split; [reflexivity|]; simpl; rewrite TILE_MAP_get;
      by destruct (expected_tiles basemap). }
  unfold post in Hp. unfold create_map.
  destruct (create_map_body env gdf basemap w) as [w' c]; simpl in Hp.
  destruct Hp as (m & -> & Hm). exists w', m.
  split; [done|]. split; [done|]. repeat split; reflexivity.
Qed.

(** * Beyond the specification: the rest of the script *)

(** ** What [load_data] does to the file system *)

Lemma delete_insert_fresh (m : gmap string Node) p x y :
  m !! p = None -> delete p (<[p := x]> (<[p := y]> m)) = m.
Proof.
  intros H. apply map_eq. intros i. destruct (decide (i = p)) as [->|];
    by simplify_map_eq.
Qed.

Lemma delete_insert_fresh2 (m : gmap string Node) p d x y u v :
  m !! p = None -> m !! d = None -> p <> d ->
  delete d (delete p (<[d := u]> (<[d := v]> (<[p := x]> (<[p := y]> m))))) = m.
Proof.
  intros Hp Hd Hne. apply map_eq. intros i.
  destruct (decide (i = p)) as [Hi|]; destruct (decide (i = d)) as [Hj|];
    by simplify_map_eq.
Qed.

Lemma delete_insert_fresh2' (m : gmap string Node) p d x y v :
  m !! p = None -> m !! d = None -> p <> d ->
  delete d (delete p (<[d := v]> (<[p := x]> (<[p := y]> m)))) = m.
Proof.
  intros Hp Hd Hne. apply map_eq. intros i.
  destruct (decide (i = p)) as [Hi|]; destruct (decide (i = d)) as [Hj|];
    by simplify_map_eq.
Qed.

Lemma read_upload_accounts env up w :
  post (read_upload env up) (mkState w None None)
    (fun s _ =>
       scratch_accounted env up w s /\
       exists evs, trace (world s) = trace w ++ evs /\
         removed evs = [] /\
         (forall p, tmp_path s = Some p -> In (EvCreate p) evs) /\
         (forall d, extract_dir s = Some d -> In (EvMkdir d) evs)).
Proof.
  wp.
  all: fresh_paths; simplify_map_eq.
  all: split;
    [ unfold scratch_accounted; simpl
    | eexists; split; [trace_eq |]; split; [reflexivity|];
      split; intros ? ?; simplify_eq; simpl; tauto ].
  all: try (left; done).
  all: try (left; by apply delete_insert_fresh).
  all: try (left; by apply delete_insert_fresh2).
  all: try (left; by apply delete_insert_fresh2').
  all: try (right; repeat split; eauto 10; fail).
Qed.

Lemma removed_app a b : removed (a ++ b) = removed a ++ removed b.
Proof. apply flat_map_app. Qed.

Lemma created_app a b : created (a ++ b) = created a ++ created b.
Proof. apply flat_map_app. Qed.

Lemma In_created_file p evs : In (EvCreate p) evs -> In p (created evs).
Proof.
  unfold created. intros H. apply in_flat_map. exists (EvCreate p). simpl. auto.
Qed.

Lemma In_created_dir p evs : In (EvMkdir p) evs -> In p (created evs).
Proof.
  unfold created. intros H. apply in_flat_map. exists (EvMkdir p). simpl. auto.
Qed.

(** The final state of [load_data] on an upload is the cleaned state of
    [read_upload], one message apart. *)
Lemma load_data_final env up w s1 c1 :
  read_upload env up (mkState w None None) = (s1, c1) ->
  exists extra,
    fst (load_data env (Some up) w) =
      cleaned (mkState (mkWorld (fs (world s1)) (trace (world s1) ++ extra))
                       (tmp_path s1) (extract_dir s1)) /\
    removed extra = [] /\ created extra = [].
Proof.
  intros E. rewrite (load_data_cases _ _ _ _ _ E).
  assert (Hr : forall m,
            report m s1 = mkState (mkWorld (fs (world s1)) (trace (world s1) ++ [EvError m]))
                                  (tmp_path s1) (extract_dir s1)).
  { intros m. by destruct s1 as [[? ?] ? ?]. }
  assert (H0 : s1 = mkState (mkWorld (fs (world s1)) (trace (world s1) ++ []))
                            (tmp_path s1) (extract_dir s1)).
  { destruct s1 as [[? ?] ? ?]; simpl. by rewrite app_nil_r. }
  destruct c1 as [g|v|e].
  - destruct (empty g || negb (has_geometry_column g))%bool;
      [|destruct (reproject env g)]; simpl.
    + eexists. rewrite Hr. done.
    + exists []. by rewrite <- H0.
    + eexists. rewrite Hr. done.
  - exists []. simpl. by rewrite <- H0.
  - eexists. simpl. rewrite Hr. done.
Qed.

(** After [load_data] the file system is the one it found, or, when the
    write of the scratch file faulted, that one with the empty scratch file
    added. *)
Lemma load_data_fs env up w :
  fs (world (fst (load_data env (Some up) w))) = fs w \/
  exists p e, write_fault env (getbuffer up) = Some e /\
              fs w !! p = None /\
              fs (world (fst (load_data env (Some up) w))) = <[p := RegFile []]> (fs w).
Proof.
  destruct (read_upload env up (mkState w None None)) as [s1 c1] eqn:E.
  pose proof (post_run _ _ _ _ _ (read_upload_accounts env up w) E) as [Ha _].
  destruct (load_data_final _ _ _ _ _ E) as (extra & -> & _).
  unfold cleaned; simpl. destruct Ha as [Ha | (Ht & Hd & p & e & Hw & Hp & Hfs)].
  - by left.
  - right. exists p, e. rewrite Ht, Hd. simpl. done.
Qed.

(** X1. Whatever happens, [load_data] leaves every file and directory that
    existed before the call as it was. *)
Theorem preexisting_files_untouched env uploaded_file w :
  fs w ⊆ fs (world (fst (load_data env uploaded_file w))).
Proof.
  destruct uploaded_file as [up|]; [|done].
  destruct (load_data_fs env up w) as [-> | (p & e & _ & Hp & ->)]; [done|].
  by apply insert_subseteq.
Qed.

(** X3. [load_data] removes only scratch objects that it created itself
    during the same call, and none of them twice. *)
Theorem removes_only_what_it_created env uploaded_file w :
  exists evs,
    trace (world (fst (load_data env uploaded_file w))) = trace w ++ evs /\
    List.incl (removed evs) (created evs) /\
    List.NoDup (removed evs).
Proof.
  destruct uploaded_file as [up|];
    [|exists []; simpl; rewrite app_nil_r; split; [done|];
      split; [intros ? [] | constructor]].
  destruct (read_upload env up (mkState w None None)) as [s1 c1] eqn:E.
  pose proof (post_run _ _ _ _ _ (read_upload_accounts env up w) E)
    as (_ & evs & Ht & Hrm & Hp & Hd).
  pose proof (post_run _ _ _ _ _ (read_upload_post env up w) E) as ([Ip Id] & _).
  destruct (load_data_final _ _ _ _ _ E) as (extra & -> & Hre & Hce).
  exists (evs ++ extra ++ removal_events s1).
  unfold cleaned; simpl. split; [|split].
  - rewrite Ht. by rewrite <- !app_assoc.
  - rewrite !removed_app, Hrm, Hre. simpl. unfold removal_events.
    intros q Hq. rewrite created_app. apply in_or_app. left.
    destruct (tmp_path s1) as [p|], (extract_dir s1) as [d|]; simpl in Hq;
      intuition subst; auto using In_created_file, In_created_dir.
  - rewrite !removed_app, Hrm, Hre. simpl. unfold removal_events.
    destruct (tmp_path s1) as [p|] eqn:Tp, (extract_dir s1) as [d|] eqn:Td; simpl;
      repeat constructor; simpl; try tauto.
    destruct (Ip p eq_refl) as [_ [? Fp]], (Id d eq_refl) as [_ [? Fd]].
    intros [->|[]]. congruence.
Qed.

(** ** Further runs of the archive branch *)

Lemma read_upload_unreadable env up w r r' partial e :
  extraction_fails env up w r r' partial e ->
  read_upload env up (mkState w None None) =
    (mkState
       (mkWorld (extracted_fs env up w r r' partial)
          (trace w ++ [EvCreate (scratch_name (gettempdir env) r ".zip");
                       EvMkdir (scratch_name (gettempdir env) r' "");
                       EvError (msg_zip_unreadable e)]))
       (Some (scratch_name (gettempdir env) r ".zip"))
       (Some (scratch_name (gettempdir env) r' "")),
     Return None).
Proof.
  intros (Hs & Hr & Hf & Hw & Hr' & Hne & Hf' & Hx).
  apply post_eq. unfold read_upload. rewrite Hs. wp; simplify_eq.
  all: fresh_paths; unfold walk_dir in *; simplify_map_eq; try congruence.
  all: rewrite Hx in *; simplify_eq.
  all: unfold extracted_fs; norm_state; done.
Qed.

Lemma extracted_fs_cleaned env up w r r' entries :
  fs w !! scratch_name (gettempdir env) r ".zip" = None ->
  fs w !! scratch_name (gettempdir env) r' "" = None ->
  scratch_name (gettempdir env) r' "" <> scratch_name (gettempdir env) r ".zip" ->
  delete (scratch_name (gettempdir env) r' "")
    (delete (scratch_name (gettempdir env) r ".zip")
       (extracted_fs env up w r r' entries)) = fs w.
Proof. intros Hp Hd Hne. unfold extracted_fs. by apply delete_insert_fresh2. Qed.

(** The archive branch once a file is selected: the events of the call and
    its outcome, by what the driver, validation and reprojection say. *)
Lemma archive_run env up w r r' entries shp rest :
  extracts env up w r r' entries ->
  collect_shp (os_walk (scratch_name (gettempdir env) r' "") entries) = shp :: rest ->
  exists s o evs,
    load_data env (Some up) w = (s, o) /\
    trace (world s) =
      trace w ++ EvCreate (scratch_name (gettempdir env) r ".zip")
              :: EvMkdir (scratch_name (gettempdir env) r' "")
              :: EvRead shp (Some "ESRI Shapefile")
              :: evs ++ [EvRemove (scratch_name (gettempdir env) r ".zip");
                         EvRmtree (scratch_name (gettempdir env) r' "")] /\
    fs (world s) = fs w /\
    match read_file env (extracted_fs env up w r r' entries) shp
            (Some "ESRI Shapefile") with
    | Err e => o = Returned None /\ evs = [EvError (msg_load_failed e)]
    | Ok g0 =>
        if (empty g0 || negb (has_geometry_column g0))%bool
        then o = Returned None /\ evs = [EvError msg_no_geometry]
        else match reproject env g0 with
             | Ok g => o = Returned (Some g) /\ evs = []
             | Err e => o = Returned None /\ evs = [EvError (msg_load_failed e)]
             end
    end.
Proof.
  intros Hx Hsel.
  pose proof (read_upload_archive _ _ _ _ _ _ Hx) as E. simpl in E.
  rewrite Hsel in E. rewrite (load_data_cases _ _ _ _ _ E).
  destruct Hx as (_ & _ & Hf & _ & _ & Hne & Hf' & _).
  pose proof (extracted_fs_cleaned env up w r r' entries Hf Hf' Hne) as Hfs.
  assert (Hcl : forall evs (o : Outcome (option GeoDataFrame)),
            exists s' o' evs',
              (cleaned (mkState
                 (mkWorld (extracted_fs env up w r r' entries)
                    (trace w ++
                     [EvCreate (scratch_name (gettempdir env) r ".zip");
                      EvMkdir (scratch_name (gettempdir env) r' "");
                      EvRead shp (Some "ESRI Shapefile")] ++ evs))
                 (Some (scratch_name (gettempdir env) r ".zip"))
                 (Some (scratch_name (gettempdir env) r' ""))),
               o) = (s', o') /\
              trace (world s') =
                trace w ++ EvCreate (scratch_name (gettempdir env) r ".zip")
                  :: EvMkdir (scratch_name (gettempdir env) r' "")
                  :: EvRead shp (Some "ESRI Shapefile")
                  :: evs' ++ [EvRemove (scratch_name (gettempdir env) r ".zip");
                              EvRmtree (scratch_name (gettempdir env) r' "")] /\
              fs (world s') = fs w /\
              o' = o /\ evs' = evs).
  { intros evs o. rewrite cleaned_archive. do 2 eexists. exists evs.
    split; [reflexivity|]. simpl. split; [reflexivity|]. by split. }
  destruct (read_file env _ shp _) as [g0|e]; simpl.
  - destruct (empty g0 || negb (has_geometry_column g0))%bool;
      [|destruct (reproject env g0) as [g|e]].
    + destruct (Hcl [EvError msg_no_geometry] (Returned None))
        as (s' & o' & evs' & H1 & H2 & H3 & -> & ->).
      exists s', (Returned None), [EvError msg_no_geometry].
      unfold report, set_world, log; simpl. by rewrite <- app_assoc.
    + destruct (Hcl [] (Returned (Some g)))
        as (s' & o' & evs' & H1 & H2 & H3 & -> & ->).
      exists s', (Returned (Some g)), []. by rewrite app_nil_r in H1.
    + destruct (Hcl [EvError (msg_load_failed e)] (Returned None))
        as (s' & o' & evs' & H1 & H2 & H3 & -> & ->).
      exists s', (Returned None), [EvError (msg_load_failed e)].
      unfold report, set_world, log; simpl. by rewrite <- app_assoc.
  - destruct (Hcl [EvError (msg_load_failed e)] (Returned None))
      as (s' & o' & evs' & H1 & H2 & H3 & -> & ->).
    exists s', (Returned None), [EvError (msg_load_failed e)].
    unfold report, set_world, log; simpl. by rewrite <- app_assoc.
Qed.

Lemma os_walk_root top entries :
  collect_shp (os_walk top entries) =
  root_shp top entries ++ collect_shp (flat_map (walk_entry top) entries).
Proof. unfold os_walk. by rewrite collect_shp_cons. Qed.

(** X6. A shapefile that lies directly in the extraction directory wins over
    every shapefile in a subdirectory, wherever the subdirectories come in the
    listing: the file read is the first accepted file of the top directory. *)
Theorem root_shapefile_preferred env up w r r' entries shp more :
  extracts env up w r r' entries ->
  root_shp (scratch_name (gettempdir env) r' "") entries = shp :: more ->
  exists s o evs,
    load_data env (Some up) w = (s, o) /\
    trace (world s) = trace w ++ evs /\
    read_calls evs = [(shp, Some "ESRI Shapefile")].
Proof.
  intros Hx Hroot.
  assert (Hsel : collect_shp (os_walk (scratch_name (gettempdir env) r' "") entries)
                 = shp :: more ++
                   collect_shp (flat_map (walk_entry (scratch_name (gettempdir env) r' "")) entries)).
  { by rewrite os_walk_root, Hroot. }
  destruct (archive_run _ _ _ _ _ _ _ _ Hx Hsel) as (s & o & evs & Hl & Ht & _ & Hm).
  exists s, o. eexists. split; [exact Hl|]. split; [exact Ht|].
  assert (read_calls evs = []) as Hnone.
  { destruct (read_file env _ shp _) as [g0|e];
      [destruct (empty g0 || negb (has_geometry_column g0))%bool;
       [|destruct (reproject env g0)]|];
      destruct Hm as [_ ->]; reflexivity. }
  simpl. unfold read_calls in *. rewrite flat_map_app, Hnone. reflexivity.
Qed.

Lemma root_shapefile_preferred_witness :
  exists s o evs,
    load_data (ref_env ([Dir "a" (bundle "jalan"); File "batas.shp" []; File "BATAS.SHX" []],
                        None) None (Ok jakarta))
      (Some upload_zip) world0 = (s, o) /\
    trace (world s) = evs /\
    read_calls evs = [("/tmp/tmpq7w1e5zz/batas.shp", Some "ESRI Shapefile")].
Proof.
  apply (root_shapefile_preferred
           (ref_env ([Dir "a" (bundle "jalan"); File "batas.shp" []; File "BATAS.SHX" []],
                     None) None (Ok jakarta))
           upload_zip world0 "k3v9x2ab" "q7w1e5zz"
           [Dir "a" (bundle "jalan"); File "batas.shp" []; File "BATAS.SHX" []]
           "/tmp/tmpq7w1e5zz/batas.shp" []).
  - repeat split; by vm_compute.
  - reflexivity.
Defined.

(** ** Letter case of the file name *)

Lemma lower_as_map s :
  list_ascii_of_string (PyStr.lower s) = map PyStr.lower_ascii (list_ascii_of_string s).
Proof. induction s as [|c s IH]; simpl; [done | by rewrite IH]. Qed.

Lemma lower_of_list l :
  PyStr.lower (string_of_list_ascii l) = string_of_list_ascii (map PyStr.lower_ascii l).
Proof. induction l as [|c l IH]; simpl; [done | by rewrite IH]. Qed.

Lemma lower_ascii_idem c : PyStr.lower_ascii (PyStr.lower_ascii c) = PyStr.lower_ascii c.
Proof. destruct c as [[] [] [] [] [] [] [] []]; reflexivity. Qed.

Lemma eqb_lower_dot c : Ascii.eqb (PyStr.lower_ascii c) "." = Ascii.eqb c ".".
Proof. destruct c as [[] [] [] [] [] [] [] []]; reflexivity. Qed.

Lemma eqb_lower_slash c : Ascii.eqb (PyStr.lower_ascii c) "/" = Ascii.eqb c "/".
Proof. destruct c as [[] [] [] [] [] [] [] []]; reflexivity. Qed.

Lemma rfind_from_lower c l : forall i acc,
  (forall a, Ascii.eqb (PyStr.lower_ascii a) c = Ascii.eqb a c) ->
  PyStr.rfind_from i c (map PyStr.lower_ascii l) acc = PyStr.rfind_from i c l acc.
Proof.
  induction l as [|a l IH]; intros i acc Hc; simpl; [done|].
  rewrite Hc. by apply IH.
Qed.

Lemma rfind_lower s c :
  (forall a, Ascii.eqb (PyStr.lower_ascii a) c = Ascii.eqb a c) ->
  PyStr.rfind (PyStr.lower s) c = PyStr.rfind s c.
Proof. intros Hc. unfold PyStr.rfind. rewrite lower_as_map. by apply rfind_from_lower. Qed.

Lemma forallb_is_dot_lower l :
  forallb PyStr.is_dot (map PyStr.lower_ascii l) = forallb PyStr.is_dot l.
Proof.
  induction l as [|a l IH]; simpl; [done|].
  unfold PyStr.is_dot at 1 3. by rewrite eqb_lower_dot, IH.
Qed.

Lemma lower_idem s : PyStr.lower (PyStr.lower s) = PyStr.lower s.
Proof. induction s as [|c s IH]; simpl; [done | by rewrite lower_ascii_idem, IH]. Qed.

(** [splitext] commutes with lower-casing. *)
Lemma splitext_lower p :
  PyStr.splitext (PyStr.lower p) =
  (PyStr.lower (fst (PyStr.splitext p)), PyStr.lower (snd (PyStr.splitext p))).
Proof.
  unfold PyStr.splitext.
  rewrite (rfind_lower p "/" eqb_lower_slash), (rfind_lower p "." eqb_lower_dot).
  rewrite lower_as_map.
  destruct (PyStr.rfind p "/" <? PyStr.rfind p ".")%Z; [|done].
  unfold PyStr.slice. rewrite skipn_map, firstn_map, forallb_is_dot_lower.
  destruct (forallb PyStr.is_dot _); [done|]. simpl.
  by rewrite !lower_of_list, firstn_map, skipn_map.
Qed.

Lemma upload_suffix_lower n buf :
  upload_suffix (mkUpload (PyStr.lower n) buf) = upload_suffix (mkUpload n buf).
Proof.
  unfold upload_suffix. simpl. rewrite splitext_lower. simpl. apply lower_idem.
Qed.

(** ** [create_map], statement by statement *)

(** The map [create_map] returns and the warning it may show. *)
Lemma create_map_eq env gdf basemap w :
  create_map env gdf basemap w =
    let t := expected_tiles basemap in
    match gdf with
    | None => (w, Returned (Some (mkMap default_center 10 (tiles t) (attr t) [LayerControl])))
    | Some g =>
        if empty g
        then (w, Returned (Some (mkMap default_center 10 (tiles t) (attr t) [LayerControl])))
        else
          let center := match centroid env g with
                        | Ok c => (snd c, fst c)
                        | Err _ => default_center
                        end in
          match to_json env g with
          | Ok js =>
              (w, Returned (Some (mkMap center 10 (tiles t) (attr t)
                                    [GeoJson js "Data Geospasial" (tooltip_fields g);
                                     LayerControl])))
          | Err e =>
              (log (EvWarning ("⚠️ Tidak dapat menambahkan layer: " +:+ e)) w,
               Returned (Some (mkMap center 10 (tiles t) (attr t) [LayerControl])))
          end
    end.
Proof.
  assert (Hp : post (create_map_body env gdf basemap) w
                 (fun w' c =>
                    (w', match c with
                         | Normal _ => Returned None
                         | Return m => Returned (Some m)
                         | Raise e => Raised e
                         end) =
                    let t := expected_tiles basemap in
                    match gdf with
                    | None => (w, Returned (Some (mkMap default_center 10 (tiles t) (attr t) [LayerControl])))
                    | Some g =>
                        if empty g
                        then (w, Returned (Some (mkMap default_center 10 (tiles t) (attr t) [LayerControl])))
                        else
                          let center := match centroid env g with
                                        | Ok c => (snd c, fst c)
                                        | Err _ => default_center
                                        end in
                          match to_json env g with
                          | Ok js =>
                              (w, Returned (Some (mkMap center 10 (tiles t) (attr t)
                                                    [GeoJson js "Data Geospasial" (tooltip_fields g);
                                                     LayerControl])))
                          | Err e =>
                              (log (EvWarning ("⚠️ Tidak dapat menambahkan layer: " +:+ e)) w,
                               Returned (Some (mkMap center 10 (tiles t) (attr t) [LayerControl])))
                          end
                    end)).
  { wp; try (rewrite TILE_MAP_default in *; simplify_eq).
    all: rewrite ?TILE_MAP_get; simpl; try reflexivity.
    all: repeat match goal with
                | H : negb _ = true |- _ => apply negb_true_iff in H
                | H : negb _ = false |- _ => apply negb_false_iff in H
                end.
    all: repeat match goal with H : _ = _ |- _ => rewrite H end; reflexivity. }
  unfold post in Hp. unfold create_map.
  by destruct (create_map_body env gdf basemap w) as [w' c].
Qed.

(** ** The page, run by run *)

#[local] Arguments load_data : simpl never.
#[local] Arguments create_map : simpl never.

Ltac run_page :=
  unfold run_app, app, app_head, app_col1, app_col2, app_foot, call_create_map,
    call_load_data, emit, page_warning, bind, pure, modify, lift, py_raise;
  simpl.

Lemma run_app_absent env basemap w :
  run_app env None basemap w =
    (mkPage w (page_top ++ [(InCol1, ElFolium (Some default_map) 750 500 "default_map")]
               ++ no_data_elements ++ page_foot),
     Returned tt).
Proof. run_page. rewrite create_map_eq. reflexivity. Qed.

Lemma run_app_failed env up basemap w s :
  load_data env (Some up) w = (s, Returned None) ->
  run_app env (Some up) basemap w =
    (mkPage (log (EvWarning "⚠️ Tidak ada data geospasial valid.") (world s))
            (page_top ++ [(InCol1, ElSpinner "📥 Memuat data...")]
             ++ no_data_elements ++ page_foot),
     Returned tt).
Proof. intros H. run_page. rewrite H. reflexivity. Qed.

Lemma run_app_loaded env up basemap w s g :
  load_data env (Some up) w = (s, Returned (Some g)) ->
  run_app env (Some up) basemap w =
    let '(w', m) := create_map env (Some g) basemap (world s) in
    let shown :=
      page_top ++ [(InCol1, ElSpinner "📥 Memuat data...");
                   (InCol1, ElSuccess ("✅ Data berhasil dimuat (" +:+ pretty (nrows g)
                                       +:+ " fitur)"));
                   (InCol1, ElFolium (match m with Returned v => v | Raised _ => None end)
                              750 500 "map")]
      ++ summary_elements g in
    match to_json env g with
    | Ok js =>
        (mkPage w' (shown ++ [(InCol2, ElDownloadButton "💾 Download GeoJSON" js
                                         "data.geojson" "application/json")]
                    ++ page_foot),
         Returned tt)
    | Err e => (mkPage w' shown, Raised e)
    end.
Proof.
  intros H. rewrite create_map_eq.
  destruct (to_json env g) as [js|e] eqn:Hj; destruct (empty g) eqn:He.
  all: run_page; rewrite H; simpl; rewrite create_map_eq, He, ?Hj; simpl;
    rewrite ?Hj; reflexivity.
Qed.

(** ** [create_map]: centre, layers, tooltip *)

(** X9. The map is centred on the centroid of the data, latitude first,
    when there is non-empty data and its centroid can be computed; in every
    other case (no data, empty data, a fault in the centroid computation) it is
    centred on Jakarta.  The zoom level is always 10 and no case makes
    [create_map] fail. *)
Theorem create_map_centre env gdf basemap w :
  exists w' m,
    create_map env gdf basemap w = (w', Returned (Some m)) /\
    zoom_start m = 10%Z /\
    location m =
      match gdf with
      | None => default_center
      | Some g =>
          if empty g then default_center
          else match centroid env g with
               | Ok (x, y) => (y, x)
               | Err _ => default_center
               end
      end.
Proof.
  rewrite create_map_eq. destruct gdf as [g|]; simpl; [|by eauto].
  destruct (empty g); [by eauto|].
  destruct (to_json env g), (centroid env g) as [[x y]|]; by eauto.
Qed.

(** X10. [create_map] adds the data layer exactly when there is non-empty
    data and its GeoJSON serialisation succeeds; when the serialisation
    faults, it shows one warning with the cause and still returns the map.  The
    layer control is always the last layer, the file system is never touched and
    no error is reported. *)
Theorem create_map_layers env gdf basemap w :
  exists w' m,
    create_map env gdf basemap w = (w', Returned (Some m)) /\
    fs w' = fs w /\
    match gdf with
    | None => layers m = [LayerControl] /\ trace w' = trace w
    | Some g =>
        if empty g then layers m = [LayerControl] /\ trace w' = trace w
        else match to_json env g with
             | Ok js =>
                 layers m = [GeoJson js "Data Geospasial" (tooltip_fields g);
                             LayerControl] /\
                 trace w' = trace w
             | Err e =>
                 layers m = [LayerControl] /\
                 trace w' = trace w ++
                   [EvWarning ("⚠️ Tidak dapat menambahkan layer: " +:+ e)]
             end
    end.
Proof.
  rewrite create_map_eq. destruct gdf as [g|]; simpl; [|by eauto 10].
  destruct (empty g); [by eauto 10|].
  destruct (to_json env g); by eauto 10.
Qed.

Lemma tooltip_fields_spec g c :
  In c (tooltip_fields g) <-> In c (columns g) /\ c <> "geometry".
Proof.
  unfold tooltip_fields. rewrite filter_In, negb_true_iff.
  by destruct (String.eqb_spec c "geometry"); intuition.
Qed.

Lemma returned_frame_not_empty env up w s g :
  set_crs_assigns env -> to_crs_result env ->
  load_data env (Some up) w = (s, Returned (Some g)) ->
  empty g = false /\ In "geometry" (columns g).
Proof.
  intros Hset Hto H. apply load_data_Some in H as (g0 & _ & He & Hg & Hr).
  apply empty_false in He as [Hn Hs]. apply has_geometry_column_In in Hg.
  assert (nrows g = nrows g0 /\ columns g = columns g0) as [E1 E2].
  { unfold reproject in Hr. destruct (crs g0) eqn:Hc.
    - by apply Hto in Hr as (_ & -> & ->).
    - by rewrite (Hset _ _ _ Hc Hr). }
  split; [|by rewrite E2]. apply empty_false. split; [by rewrite E1|].
  unfold columns in E2. intros Hnil. rewrite Hnil in E2. simpl in E2.
  symmetry in E2. apply map_eq_nil in E2. done.
Qed.

(** X11. From loading to the map: every data set that [load_data] returns
    gets its data layer on the map as soon as it can be serialised, and the
    tooltip of that layer lists, in frame order, every column but the geometry
    column, which the data set always has. *)
Theorem loaded_data_gets_its_layer env up w s g basemap js :
  set_crs_assigns env -> to_crs_result env ->
  load_data env (Some up) w = (s, Returned (Some g)) ->
  to_json env g = Ok js ->
  exists m,
    create_map env (Some g) basemap (world s) = (world s, Returned (Some m)) /\
    layers m = [GeoJson js "Data Geospasial" (tooltip_fields g); LayerControl] /\
    In "geometry" (columns g) /\
    ~ In "geometry" (tooltip_fields g) /\
    (forall c, In c (columns g) -> c <> "geometry" -> In c (tooltip_fields g)).
Proof.
  intros Hset Hto H Hj.
  destruct (returned_frame_not_empty _ _ _ _ _ Hset Hto H) as [He Hg].
  rewrite create_map_eq, He, Hj. simpl. eexists. split; [reflexivity|].
  split; [reflexivity|]. split; [exact Hg|]. split.
  - rewrite tooltip_fields_spec. tauto.
  - intros c Hc Hne. by apply tooltip_fields_spec.
Qed.

Lemma loaded_data_gets_its_layer_witness :
  exists m,
    create_map (ref_env ([], None) None (Ok jakarta)) (Some jakarta_wgs84) "Stamen Terrain"
      (world (fst (load_data (ref_env ([], None) None (Ok jakarta))
                     (Some upload_geojson) world0)))
    = (world (fst (load_data (ref_env ([], None) None (Ok jakarta))
                     (Some upload_geojson) world0)),
       Returned (Some m)) /\
    layers m = [GeoJson "{}" "Data Geospasial" (tooltip_fields jakarta_wgs84); LayerControl] /\
    In "geometry" (columns jakarta_wgs84) /\
    ~ In "geometry" (tooltip_fields jakarta_wgs84) /\
    (forall c, In c (columns jakarta_wgs84) -> c <> "geometry" ->
               In c (tooltip_fields jakarta_wgs84)).
Proof.
  apply (loaded_data_gets_its_layer
           (ref_env ([], None) None (Ok jakarta)) upload_geojson world0
           (fst (load_data (ref_env ([], None) None (Ok jakarta))
                   (Some upload_geojson) world0))
           jakarta_wgs84 "Stamen Terrain" "{}"
           (ref_env_set_crs_assigns _ _ _) (ref_env_to_crs_result _ _ _)).
  - by vm_compute.
  - reflexivity.
Defined.

(** ** The page: what a visitor gets *)

Lemma create_map_fs env gdf basemap w :
  fs (fst (create_map env gdf basemap w)) = fs w.
Proof.
  rewrite create_map_eq. destruct gdf as [g|]; simpl; [|done].
  destruct (empty g); [done|]. by destruct (to_json env g).
Qed.

(** X12. Without an upload the page shows one map, the default one: centred
    on Jakarta, on OpenStreetMap tiles whatever basemap the sidebar returned,
    with no data layer.  It offers no download, reads and writes no file, and
    reports nothing. *)
Theorem page_without_upload env basemap w :
  exists pg,
    run_app env None basemap w = (pg, Returned tt) /\
    page_world pg = w /\
    maps_shown pg = [(Some default_map, "default_map")] /\
    downloads pg = [] /\
    In (InCol2, ElInfo "Unggah file untuk melihat informasi data.") (page_elements pg).
Proof.
  rewrite run_app_absent. eexists. split; [reflexivity|].
  repeat split. simpl. tauto.
Qed.

(** X13. When [load_data] returns no data set the page shows no map at all,
    not even the default one; it adds the no-valid-data warning to what
    [load_data] reported, offers no download and shows the upload hint. *)
Theorem page_after_failed_load env up basemap w s :
  load_data env (Some up) w = (s, Returned None) ->
  exists pg,
    run_app env (Some up) basemap w = (pg, Returned tt) /\
    maps_shown pg = [] /\
    downloads pg = [] /\
    fs (page_world pg) = fs (world s) /\
    trace (page_world pg) =
      trace (world s) ++ [EvWarning "⚠️ Tidak ada data geospasial valid."] /\
    In (InCol2, ElInfo "Unggah file untuk melihat informasi data.") (page_elements pg).
Proof.
  intros H. rewrite (run_app_failed _ _ _ _ _ H). eexists. split; [reflexivity|].
  repeat split. simpl. tauto.
Qed.

Lemma page_after_failed_load_witness :
  exists pg,
    run_app (ref_env ([], None) None (Ok no_features)) (Some upload_geojson)
      "CartoDB Positron" world0 = (pg, Returned tt) /\
    maps_shown pg = [] /\
    downloads pg = [] /\
    fs (page_world pg) = ∅ /\
    trace (page_world pg) =
      [EvCreate "/tmp/tmpk3v9x2ab.geojson"; EvRead "/tmp/tmpk3v9x2ab.geojson" None;
       EvError msg_no_geometry; EvRemove "/tmp/tmpk3v9x2ab.geojson";
       EvWarning "⚠️ Tidak ada data geospasial valid."] /\
    In (InCol2, ElInfo "Unggah file untuk melihat informasi data.") (page_elements pg).
Proof.
  apply (page_after_failed_load (ref_env ([], None) None (Ok no_features))
           upload_geojson "CartoDB Positron" world0
           (fst (load_data (ref_env ([], None) None (Ok no_features))
                   (Some upload_geojson) world0))).
  by vm_compute.
Defined.

(** X14. When [load_data] returns a data set that can be serialised, the page
    shows the success message with the number of features, exactly one map,
    the one [create_map] builds from that data set and the chosen basemap,
    the first five rows, and one download button whose content is the
    GeoJSON serialisation of the returned data set. *)
Theorem page_after_load env up basemap w s g js :
  load_data env (Some up) w = (s, Returned (Some g)) ->
  to_json env g = Ok js ->
  exists pg m,
    run_app env (Some up) basemap w = (pg, Returned tt) /\
    create_map env (Some g) basemap (world s) = (page_world pg, Returned (Some m)) /\
    maps_shown pg = [(Some m, "map")] /\
    downloads pg = [js] /\
    In (InCol1, ElSuccess ("✅ Data berhasil dimuat (" +:+ pretty (nrows g) +:+ " fitur)"))
       (page_elements pg) /\
    In (InCol2, ElDataframe (frame_head 5 g)) (page_elements pg).
Proof.
  intros H Hj. rewrite (run_app_loaded _ _ _ _ _ _ H), Hj.
  rewrite create_map_eq. destruct (empty g); simpl; rewrite ?Hj.
  all: do 2 eexists; split; [reflexivity|]; split; [reflexivity|];
    repeat split; simpl; tauto.
Qed.

Lemma page_after_load_witness :
  exists pg m,
    run_app (ref_env ([], None) None (Ok jakarta)) (Some upload_geojson)
      "CartoDB Positron" world0 = (pg, Returned tt) /\
    create_map (ref_env ([], None) None (Ok jakarta)) (Some jakarta_wgs84)
      "CartoDB Positron"
      (world (fst (load_data (ref_env ([], None) None (Ok jakarta))
                     (Some upload_geojson) world0)))
    = (page_world pg, Returned (Some m)) /\
    maps_shown pg = [(Some m, "map")] /\
    downloads pg = ["{}"] /\
    In (InCol1, ElSuccess ("✅ Data berhasil dimuat (" +:+ pretty (nrows jakarta_wgs84)
                           +:+ " fitur)"))
       (page_elements pg) /\
    In (InCol2, ElDataframe (frame_head 5 jakarta_wgs84)) (page_elements pg).
Proof.
  apply (page_after_load (ref_env ([], None) None (Ok jakarta)) upload_geojson
           "CartoDB Positron" world0
           (fst (load_data (ref_env ([], None) None (Ok jakarta))
                   (Some upload_geojson) world0))
           jakarta_wgs84 "{}").
  - by vm_compute.
  - reflexivity.
Defined.

(** * The script on a host where closing and deleting can fail *)

Ltac wp_step_on :=
  first
    [ wp_step
    | lazymatch goal with
      | |- post (tmp_close _ _) _ _ => unfold tmp_close
      | |- post (os_remove_on _ _) _ _ => unfold os_remove_on
      | |- post (shutil_rmtree_on _ _) _ _ => unfold shutil_rmtree_on
      | |- post (save_upload_on _ _ _ _) _ _ => unfold save_upload_on
      | |- post (read_upload_on _ _ _) _ _ => unfold read_upload_on
      | |- post (load_data_try_on _ _ _) _ _ => unfold load_data_try_on
      end ].

Ltac wp_on := repeat (wp_step_on; simpl).

(** A [finally] block that does nothing. *)
Lemma try_finally_pure {S R A} (m : Stmt S R A) s :
  try_finally m (pure tt) s = m s.
Proof. unfold try_finally, pure. by destruct (m s) as [s1 [a|v|e]]. Qed.

(** Without a fault at the close, reading the upload goes as before. *)
Lemma read_upload_on_closed h env up s :
  close_fault h (getbuffer up) = None ->
  read_upload_on h env up s = read_upload env up s.
Proof.
  intros Hc. unfold read_upload_on, read_upload, save_upload_on, save_upload, tmp_close.
  rewrite Hc. unfold bind.
  destruct (NamedTemporaryFile env (upload_suffix up) s) as [s1 [tmp|v|e]];
    [|reflexivity..].
  rewrite try_finally_pure.
  by destruct (tmp_write env tmp (getbuffer up) s1) as [s2 [[]|v|e]].
Qed.

(** On the reliable host [load_data_on] is [load_data]. *)
Lemma load_data_on_reliable_host env uploaded_file w :
  load_data_on reliable_host env uploaded_file w = load_data env uploaded_file w.
Proof.
  destruct uploaded_file as [up|]; [|reflexivity].
  unfold load_data_on, load_data, try_finally, try_except, load_data_try_on,
    load_data_try, bind.
  rewrite (read_upload_on_closed reliable_host env up _ eq_refl). reflexivity.
Qed.

(** What [read_upload_on] leaves behind, however it completes. *)
Lemma read_upload_on_post h env up w :
  post (read_upload_on h env up) (mkState w None None)
    (fun s c =>
       Inv s /\ scratch_accounted env up w s /\
       exists evs, trace (world s) = trace w ++ evs /\
         removed evs = [] /\
         (forall p, tmp_path s = Some p -> In (EvCreate p) evs) /\
         (forall d, extract_dir s = Some d -> In (EvMkdir d) evs) /\
         match c with
         | Normal _ | Raise _ => errors evs = []
         | Return v => v = None /\ exists m, errors evs = [m]
         end).
Proof.
  wp_on.
  all: fresh_paths; simplify_map_eq.
  all: split;
    [ unfold Inv; simpl; split; intros ? ?; simplify_eq;
      try (split; [apply truthy_scratch_name|]); simplify_map_eq; eauto
    | split;
      [ unfold scratch_accounted; simpl
      | eexists; split; [trace_eq |]; split; [reflexivity|];
        split; [intros ? ?; simplify_eq; simpl; tauto|];
        split; [intros ? ?; simplify_eq; simpl; tauto|]; simpl; eauto ] ].
  all: try (left; done).
  all: try (left; by apply delete_insert_fresh).
  all: try (left; by apply delete_insert_fresh2).
  all: try (left; by apply delete_insert_fresh2').
  all: try (right; repeat split; eauto 10; fail).
Qed.

(** The [finally] block when deleting succeeds. *)
Lemma finally_on_reliable h s :
  reliable_removal h -> Inv s ->
  load_data_finally_on h s = (cleaned s, Normal tt).
Proof.
  intros [Hrm Hrt] [Hp Hd]. apply post_eq.
  unfold load_data_finally_on, cleaned, removal_events.
  destruct s as [[fsys tr] [p|] [d|]]; simpl in *.
  all: try (destruct (Hp p eq_refl) as [Tp [data Fp]]; unfold truthy in Tp).
  all: try (destruct (Hd d eq_refl) as [Td [es Fd]]; unfold truthy in Td).
  all: try assert (p <> d) by congruence.
  all: wp_on; simpl in *; simplify_map_eq.
  all: try (rewrite Hrm in *; simplify_eq).
  all: try (rewrite Hrt in *; simplify_eq).
  all: try (exfalso; eauto using mk_is_Some; fail).
  all: try (unfold set_world, log, set_fs; simpl; rewrite <- ?app_assoc, ?app_nil_r; reflexivity).
  all: try match goal with H : bool_decide _ = false |- _ =>
         apply bool_decide_eq_false_1 in H; exfalso; apply H; simplify_map_eq; eauto end.
Qed.

(** The [finally] block when [os.remove] faults: the fault leaves the block,
    nothing is deleted, [shutil.rmtree] is not reached. *)
Lemma finally_on_remove_fault h s p e :
  Inv s -> tmp_path s = Some p -> remove_fault h p = Some e ->
  load_data_finally_on h s = (s, Raise e).
Proof.
  intros [Hp Hd] Tp Hf. apply post_eq. unfold load_data_finally_on.
  destruct s as [[fsys tr] tp ed]; simpl in *. subst tp.
  destruct (Hp p eq_refl) as [Tr [data Fp]]. unfold truthy in Tr.
  wp_on; simpl in *; simplify_map_eq; try done.
  all: match goal with H : bool_decide _ = false |- _ =>
    apply bool_decide_eq_false_1 in H; exfalso; apply H; rewrite Fp; by eexists end.
Qed.

(** The [finally] block raises only through [os.remove]; otherwise it ends
    normally, whatever [shutil.rmtree] could delete: the scratch file is
    gone, the locals are kept, nothing is created or reported. *)
Lemma finally_on_normal h s :
  Inv s ->
  (forall p, tmp_path s = Some p -> remove_fault h p = None) ->
  exists s', load_data_finally_on h s = (s', Normal tt) /\
             tmp_path s' = tmp_path s /\ extract_dir s' = extract_dir s /\
             (forall p, tmp_path s = Some p -> fs (world s') !! p = None) /\
             exists evs, trace (world s') = trace (world s) ++ evs /\
                         errors evs = [] /\ created evs = [].
Proof.
  intros [Hp Hd] Hok.
  assert (Hpost : post (load_data_finally_on h) s
            (fun s' c => c = Normal tt /\ tmp_path s' = tmp_path s /\
                         extract_dir s' = extract_dir s /\
                         (forall p, tmp_path s = Some p -> fs (world s') !! p = None) /\
                         exists evs, trace (world s') = trace (world s) ++ evs /\
                                     errors evs = [] /\ created evs = [])).
  { unfold load_data_finally_on.
    destruct s as [[fsys tr] [p|] [d|]]; simpl in *.
    all: try (destruct (Hp p eq_refl) as [Tp [data Fp]]; unfold truthy in Tp).
    all: try (destruct (Hd d eq_refl) as [Td [es Fd]]; unfold truthy in Td).
    all: try assert (p <> d) by congruence.
    all: try (pose proof (Hok p eq_refl) as Hr).
    all: wp_on; simpl in *; simplify_map_eq.
    all: try (exfalso; eauto using mk_is_Some; fail).
    all: try match goal with H : bool_decide _ = false |- _ =>
           apply bool_decide_eq_false_1 in H; exfalso; apply H; simplify_map_eq; eauto end.
    all: split; [done|]; split; [done|]; split; [done|];
         split; [intros ? ?; simplify_eq; by simplify_map_eq|].
    all: eexists; split; [trace_eq|]; done. }
  unfold post in Hpost. destruct (load_data_finally_on h s) as [s' c]; simpl in Hpost.
  destruct Hpost as (-> & H1 & H2 & H3 & H4). by exists s'.
Qed.

Lemma Inv_settled env s1 c1 : Inv s1 -> Inv (fst (settled env s1 c1)).
Proof.
  intros HI. unfold settled. destruct c1 as [g|v|e]; simpl; [|done|by apply Inv_report].
  destruct (empty g || negb (has_geometry_column g))%bool; [by apply Inv_report|].
  destruct (reproject env g); [done | by apply Inv_report].
Qed.

(** [load_data_on], by how reading the upload completed and how the
    [finally] block went. *)
Lemma load_data_on_unfold h env up w s1 c1 :
  read_upload_on h env up (mkState w None None) = (s1, c1) ->
  load_data_on h env (Some up) w =
    let '(s3, c3) := load_data_finally_on h (fst (settled env s1 c1)) in
    (s3, match c3 with
         | Normal _ => Returned (snd (settled env s1 c1))
         | Return v => Returned v
         | Raise e => Raised e
         end).
Proof.
  intros E. unfold load_data_on, try_finally, try_except, load_data_try_on, bind.
  rewrite E. unfold settled. destruct c1 as [g|v|e]; simpl.
  - pose proof (normalize_post env g s1) as HN. unfold post in HN.
    destruct (normalize env g s1) as [s2 c2]; simpl in HN.
    destruct (empty g || negb (has_geometry_column g))%bool.
    + destruct HN as [-> ->]. simpl.
      by destruct (load_data_finally_on h (report msg_no_geometry s1)) as [s3 [?|?|?]].
    + destruct (reproject env g) as [g'|e]; destruct HN as [-> ->]; simpl.
      * by destruct (load_data_finally_on h s1) as [s3 [?|?|?]].
      * unfold load_data_except, bind, st_error, modify, py_return; simpl.
        fold (report (msg_load_failed e) s1).
        by destruct (load_data_finally_on h (report (msg_load_failed e) s1)) as [s3 [?|?|?]].
  - by destruct (load_data_finally_on h s1) as [s3 [?|?|?]].
  - unfold load_data_except, bind, st_error, modify, py_return; simpl.
    fold (report (msg_load_failed e) s1).
    by destruct (load_data_finally_on h (report (msg_load_failed e) s1)) as [s3 [?|?|?]].
Qed.

Lemma settled_locals env s1 c1 :
  tmp_path (fst (settled env s1 c1)) = tmp_path s1 /\
  extract_dir (fst (settled env s1 c1)) = extract_dir s1 /\
  fs (world (fst (settled env s1 c1))) = fs (world s1).
Proof.
  unfold settled. destruct c1 as [g|v|e]; simpl; try done.
  - destruct (empty g || negb (has_geometry_column g))%bool; [done|].
    by destruct (reproject env g).
Qed.

(** [load_data_on] raises exactly when [os.remove] faults on the scratch
    file the locals name; it then raises that fault. *)
Lemma load_data_on_raises h env up w e :
  snd (load_data_on h env (Some up) w) = Raised e <->
  exists p, tmp_path (fst (load_data_on h env (Some up) w)) = Some p /\
            remove_fault h p = Some e.
Proof.
  destruct (read_upload_on h env up (mkState w None None)) as [s1 c1] eqn:E.
  pose proof (post_run _ _ _ _ _ (read_upload_on_post h env up w) E) as (HI & _).
  rewrite (load_data_on_unfold _ _ _ _ _ _ E).
  pose proof (Inv_settled env s1 c1 HI) as HI2.
  destruct (settled_locals env s1 c1) as (Ht & _ & _).
  destruct (tmp_path (fst (settled env s1 c1))) as [p|] eqn:Tp.
  - destruct (remove_fault h p) as [e'|] eqn:Hf.
    + rewrite (finally_on_remove_fault h _ p e' HI2 Tp Hf). simpl. rewrite Tp. split.
      * intros [= ->]. by exists p.
      * intros (q & [= <-] & Hq). congruence.
    + destruct (finally_on_normal h _ HI2) as (s' & -> & Ht' & _).
      { intros q Hq. congruence. }
      simpl. rewrite Ht', Tp. split; [discriminate|].
      intros (q & [= <-] & Hq). congruence.
  - destruct (finally_on_normal h _ HI2) as (s' & -> & Ht' & _).
    { intros q Hq. congruence. }
    simpl. rewrite Ht', Tp. split; [discriminate|]. by intros (q & [=] & _).
Qed.

(** What [try] and [except] add to the trace before the [finally] block. *)
Lemma settled_trace env s1 c1 :
  exists extra,
    trace (world (fst (settled env s1 c1))) = trace (world s1) ++ extra /\
    removed extra = [] /\ created extra = [] /\
    match c1 with
    | Return v => snd (settled env s1 c1) = v /\ extra = []
    | _ => match snd (settled env s1 c1) with
           | Some _ => extra = []
           | None => exists m, extra = [EvError m]
           end
    end.
Proof.
  unfold settled. destruct c1 as [g|v|e]; simpl.
  - destruct (empty g || negb (has_geometry_column g))%bool; simpl.
    + eexists. split; [reflexivity|]. eauto.
    + destruct (reproject env g); simpl.
      * exists []. by rewrite app_nil_r.
      * eexists. split; [reflexivity|]. eauto.
  - exists []. by rewrite app_nil_r.
  - eexists. split; [reflexivity|]. eauto.
Qed.

(** When deleting succeeds and the close does not fault, the call goes as
    on the reliable host. *)
Lemma load_data_on_bridge h env uploaded_file w :
  reliable_removal h ->
  match uploaded_file with
  | Some up => close_fault h (getbuffer up) = None
  | None => True
  end ->
  load_data_on h env uploaded_file w = load_data env uploaded_file w.
Proof.
  intros Hrel Hc. destruct uploaded_file as [up|]; [|reflexivity].
  rewrite <- (load_data_on_reliable_host env (Some up) w).
  destruct (read_upload env up (mkState w None None)) as [s1 c1] eqn:E.
  assert (E1 : read_upload_on h env up (mkState w None None) = (s1, c1))
    by (by rewrite read_upload_on_closed).
  assert (E2 : read_upload_on reliable_host env up (mkState w None None) = (s1, c1))
    by (by rewrite read_upload_on_closed).
  pose proof (post_run _ _ _ _ _ (read_upload_on_post h env up w) E1) as (HI & _).
  rewrite (load_data_on_unfold _ _ _ _ _ _ E1), (load_data_on_unfold _ _ _ _ _ _ E2).
  rewrite !finally_on_reliable; auto using Inv_settled.
  by split.
Qed.

(** Once the upload is saved, [tmp_path] names the scratch file for the rest
    of the [try] block, and the file stays as written. *)
Lemma read_upload_on_saved h env up w r :
  tmpfile_rand env = Ok r ->
  fs w !! scratch_name (gettempdir env) r (upload_suffix up) = None ->
  write_fault env (getbuffer up) = None ->
  post (read_upload_on h env up) (mkState w None None)
    (fun s _ =>
       tmp_path s = Some (scratch_name (gettempdir env) r (upload_suffix up)) /\
       fs (world s) !! scratch_name (gettempdir env) r (upload_suffix up)
         = Some (RegFile (getbuffer up))).
Proof.
  intros Hr Hf Hw. wp_on; simplify_eq.
  all: fresh_paths; simplify_map_eq; try done.
Qed.

(** With deletion succeeding and the write not faulting, the call leaves the
    file system as it found it. *)
Lemma load_data_on_fs h env up w :
  reliable_removal h ->
  write_fault env (getbuffer up) = None ->
  fs (world (fst (load_data_on h env (Some up) w))) = fs w.
Proof.
  intros Hrel Hw.
  destruct (read_upload_on h env up (mkState w None None)) as [s1 c1] eqn:E.
  pose proof (post_run _ _ _ _ _ (read_upload_on_post h env up w) E) as (HI & Ha & _).
  rewrite (load_data_on_unfold _ _ _ _ _ _ E).
  rewrite finally_on_reliable; auto using Inv_settled. simpl.
  destruct (settled_locals env s1 c1) as (-> & -> & ->).
  destruct Ha as [Ha | (_ & _ & p & e & Hw' & _)]; [done | congruence].
Qed.

(** ** [load_data] on the host *)

(** C9 fails on the code.  [os.remove] on line 127 stands unguarded in the
    [finally] block, outside of what [except] covers.  Once the upload is
    saved, a fault of [os.remove] on the scratch file leaves [load_data] as an
    exception, whatever the [try] block had reached, a loaded data set
    included: the value about to be returned is lost, the scratch file stays,
    and nothing is removed. *)
Theorem remove_fault_escapes_load_data h env up w r e :
  tmpfile_rand env = Ok r ->
  fs w !! scratch_name (gettempdir env) r (upload_suffix up) = None ->
  write_fault env (getbuffer up) = None ->
  remove_fault h (scratch_name (gettempdir env) r (upload_suffix up)) = Some e ->
  exists s evs,
    load_data_on h env (Some up) w = (s, Raised e) /\
    fs (world s) !! scratch_name (gettempdir env) r (upload_suffix up)
      = Some (RegFile (getbuffer up)) /\
    trace (world s) = trace w ++ evs /\
    removed evs = [].
Proof.
  intros Hr Hf Hw He.
  destruct (read_upload_on h env up (mkState w None None)) as [s1 c1] eqn:E.
  pose proof (post_run _ _ _ _ _ (read_upload_on_post h env up w) E)
    as (HI & _ & evs & Ht & Hrm & _).
  pose proof (post_run _ _ _ _ _ (read_upload_on_saved h env up w r Hr Hf Hw) E)
    as (Hp & Hfile).
  rewrite (load_data_on_unfold _ _ _ _ _ _ E).
  destruct (settled_locals env s1 c1) as (Hp' & _ & Hfs).
  destruct (settled_trace env s1 c1) as (extra & Ht' & Hrm' & _).
  rewrite (finally_on_remove_fault h _ _ e (Inv_settled env s1 c1 HI)
             (eq_trans Hp' Hp) He).
  exists (fst (settled env s1 c1)), (evs ++ extra).
  split; [reflexivity|]. rewrite Hfs, Ht', Ht, removed_app, Hrm, Hrm'.
  by rewrite <- app_assoc.
Qed.

Lemma remove_fault_escapes_load_data_witness :
  exists s evs,
    load_data_on locked_host (ref_env ([], None) None (Ok jakarta))
      (Some upload_geojson) world0
    = (s, Raised "[WinError 32] The process cannot access the file: /tmp/tmpk3v9x2ab.geojson") /\
    fs (world s) !! "/tmp/tmpk3v9x2ab.geojson" = Some (RegFile []) /\
    trace (world s) = evs /\
    removed evs = [].
Proof.
  apply (remove_fault_escapes_load_data locked_host
           (ref_env ([], None) None (Ok jakarta)) upload_geojson world0 "k3v9x2ab");
    by vm_compute.
Defined.

(** X2. When deleting succeeds and the write of the scratch file does not
    fault, [load_data] leaves the file system exactly as it found it, whether
    it returns a data set or fails at any later stage, the close of the
    scratch file included. *)
Theorem file_system_restored h env up w s o :
  reliable_removal h ->
  write_fault env (getbuffer up) = None ->
  load_data_on h env (Some up) w = (s, o) ->
  fs (world s) = fs w.
Proof.
  intros Hrel Hw H. pose proof (load_data_on_fs h env up w Hrel Hw) as Hfs.
  by rewrite H in Hfs.
Qed.

Lemma file_system_restored_witness :
  fs (world (fst (load_data_on full_disk_host
                    (ref_env (archive_ab, None) None (Ok jakarta))
                    (Some upload_zip) world0))) = fs world0.
Proof.
  apply (file_system_restored full_disk_host
           (ref_env (archive_ab, None) None (Ok jakarta)) upload_zip world0
           _ (snd (load_data_on full_disk_host
                     (ref_env (archive_ab, None) None (Ok jakarta))
                     (Some upload_zip) world0))).
  - split; intros; reflexivity.
  - reflexivity.
  - by vm_compute.
Defined.

(** X4. On a host where the close and the deletions succeed, an archive that
    cannot be extracted makes [load_data] report the unreadable-archive
    message with the cause, return no data set without ever calling the
    format driver, and remove the scratch file and the partly filled
    extraction directory. *)
Theorem unreadable_archive_rejected h env up w r r' partial e :
  reliable_removal h ->
  close_fault h (getbuffer up) = None ->
  extraction_fails env up w r r' partial e ->
  exists s,
    load_data_on h env (Some up) w = (s, Returned None) /\
    trace (world s) =
      trace w ++ [EvCreate (scratch_name (gettempdir env) r ".zip");
                  EvMkdir (scratch_name (gettempdir env) r' "");
                  EvError (msg_zip_unreadable e);
                  EvRemove (scratch_name (gettempdir env) r ".zip");
                  EvRmtree (scratch_name (gettempdir env) r' "")] /\
    fs (world s) = fs w.
Proof.
  intros Hrel Hc Hx. rewrite (load_data_on_bridge h env (Some up) w Hrel Hc).
  pose proof (read_upload_unreadable _ _ _ _ _ _ _ Hx) as E.
  destruct Hx as (_ & _ & Hf & _ & _ & Hne & Hf' & _).
  rewrite (load_data_cases _ _ _ _ _ E), cleaned_archive.
  eexists. split; [reflexivity|]. split; [reflexivity|].
  by apply extracted_fs_cleaned.
Qed.

Lemma unreadable_archive_rejected_witness :
  exists s,
    load_data_on reliable_host
      (ref_env ([Dir "a" [File "jalan.dbf" []]], Some "Bad CRC-32 for file 'a/jalan.shp'")
         None (Ok jakarta))
      (Some upload_zip) world0 = (s, Returned None) /\
    trace (world s) =
      [EvCreate "/tmp/tmpk3v9x2ab.zip"; EvMkdir "/tmp/tmpq7w1e5zz";
       EvError (msg_zip_unreadable "Bad CRC-32 for file 'a/jalan.shp'");
       EvRemove "/tmp/tmpk3v9x2ab.zip"; EvRmtree "/tmp/tmpq7w1e5zz"] /\
    fs (world s) = ∅.
Proof.
  apply (unreadable_archive_rejected reliable_host
           (ref_env ([Dir "a" [File "jalan.dbf" []]], Some "Bad CRC-32 for file 'a/jalan.shp'")
              None (Ok jakarta))
           upload_zip world0 "k3v9x2ab" "q7w1e5zz" [Dir "a" [File "jalan.dbf" []]]
           "Bad CRC-32 for file 'a/jalan.shp'").
  - split; intros; reflexivity.
  - reflexivity.
  - repeat split; by vm_compute.
Defined.

(** X5. On a host where the close and the deletions succeed, an archive that
    extracts and holds an accepted file at some depth never gets the
    no-shapefile message: exactly one file, one of the accepted ones, is
    handed to the driver with the shapefile driver forced, and the call ends
    as the driver, validation and reprojection decide; both scratch objects
    are removed and the file system is as before. *)
Theorem archive_with_shp_reaches_driver h env up w r r' entries :
  reliable_removal h ->
  close_fault h (getbuffer up) = None ->
  extracts env up w r r' entries ->
  existsb has_shp entries = true ->
  exists shp s o evs,
    In shp (collect_shp (os_walk (scratch_name (gettempdir env) r' "") entries)) /\
    load_data_on h env (Some up) w = (s, o) /\
    trace (world s) =
      trace w ++ EvCreate (scratch_name (gettempdir env) r ".zip")
              :: EvMkdir (scratch_name (gettempdir env) r' "")
              :: EvRead shp (Some "ESRI Shapefile")
              :: evs ++ [EvRemove (scratch_name (gettempdir env) r ".zip");
                         EvRmtree (scratch_name (gettempdir env) r' "")] /\
    fs (world s) = fs w /\
    match read_file env (extracted_fs env up w r r' entries) shp
            (Some "ESRI Shapefile") with
    | Err e => o = Returned None /\ evs = [EvError (msg_load_failed e)]
    | Ok g0 =>
        if (empty g0 || negb (has_geometry_column g0))%bool
        then o = Returned None /\ evs = [EvError msg_no_geometry]
        else match reproject env g0 with
             | Ok g => o = Returned (Some g) /\ evs = []
             | Err e => o = Returned None /\ evs = [EvError (msg_load_failed e)]
             end
    end.
Proof.
  intros Hrel Hc Hx Hhas. rewrite (load_data_on_bridge h env (Some up) w Hrel Hc).
  destruct (collect_shp (os_walk (scratch_name (gettempdir env) r' "") entries))
    as [|shp rest] eqn:Hsel.
  - apply os_walk_nil in Hsel. congruence.
  - destruct (archive_run _ _ _ _ _ _ _ _ Hx Hsel) as (s & o & evs & H).
    exists shp, s, o, evs. split; [by left | exact H].
Qed.

Lemma archive_with_shp_reaches_driver_witness :
  exists shp s o evs,
    In shp (collect_shp (os_walk "/tmp/tmpq7w1e5zz" archive_ab)) /\
    load_data_on reliable_host
      (ref_env (archive_ab, None) None (Err "Unable to open jalan.shx"))
      (Some upload_zip) world0 = (s, o) /\
    trace (world s) =
      EvCreate "/tmp/tmpk3v9x2ab.zip" :: EvMkdir "/tmp/tmpq7w1e5zz"
        :: EvRead shp (Some "ESRI Shapefile")
        :: evs ++ [EvRemove "/tmp/tmpk3v9x2ab.zip"; EvRmtree "/tmp/tmpq7w1e5zz"] /\
    fs (world s) = ∅ /\
    o = Returned None /\ evs = [EvError (msg_load_failed "Unable to open jalan.shx")].
Proof.
  apply (archive_with_shp_reaches_driver reliable_host
           (ref_env (archive_ab, None) None (Err "Unable to open jalan.shx"))
           upload_zip world0 "k3v9x2ab" "q7w1e5zz" archive_ab).
  - split; intros; reflexivity.
  - reflexivity.
  - repeat split; by vm_compute.
  - reflexivity.
Defined.

(** X7. On a host where the close and the deletions succeed: when the
    extraction directory cannot be created, [load_data] reports the general
    failure with the cause, returns no data set, and removes the scratch file
    it had already written. *)
Theorem mkdtemp_fault_cleans_scratch_file h env up w r e :
  reliable_removal h ->
  close_fault h (getbuffer up) = None ->
  upload_suffix up = ".zip" ->
  tmpfile_rand env = Ok r ->
  fs w !! scratch_name (gettempdir env) r ".zip" = None ->
  write_fault env (getbuffer up) = None ->
  tmpdir_rand env = Err e ->
  exists s,
    load_data_on h env (Some up) w = (s, Returned None) /\
    trace (world s) =
      trace w ++ [EvCreate (scratch_name (gettempdir env) r ".zip");
                  EvError (msg_load_failed e);
                  EvRemove (scratch_name (gettempdir env) r ".zip")] /\
    fs (world s) = fs w.
Proof.
  intros Hrel Hc Hs Hr Hf Hw Hd. rewrite (load_data_on_bridge h env (Some up) w Hrel Hc).
  assert (E : read_upload env up (mkState w None None) =
              (mkState (mkWorld (saved_fs up w (scratch_name (gettempdir env) r ".zip"))
                          (trace w ++ [EvCreate (scratch_name (gettempdir env) r ".zip")]))
                       (Some (scratch_name (gettempdir env) r ".zip")) None,
               Raise e)).
  { apply post_eq. unfold read_upload. rewrite Hs. wp; simplify_eq.
    unfold saved_fs. norm_state. done. }
  rewrite (load_data_cases _ _ _ _ _ E).
  unfold report, set_world, log; simpl. rewrite cleaned_single.
  eexists. split; [reflexivity|]. simpl. split; [by rewrite <- app_assoc|].
  unfold saved_fs. by apply delete_insert_fresh.
Qed.

Lemma mkdtemp_fault_cleans_scratch_file_witness :
  exists s,
    load_data_on reliable_host env_no_tmpdir (Some upload_zip) world0
    = (s, Returned None) /\
    trace (world s) =
      [EvCreate "/tmp/tmpk3v9x2ab.zip";
       EvError (msg_load_failed "[Errno 28] No space left on device");
       EvRemove "/tmp/tmpk3v9x2ab.zip"] /\
    fs (world s) = ∅.
Proof.
  apply (mkdtemp_fault_cleans_scratch_file reliable_host env_no_tmpdir upload_zip world0
           "k3v9x2ab" "[Errno 28] No space left on device");
    by vm_compute.
Defined.

(** X8. For a file name of ASCII characters, [load_data] does not depend on
    the letter case of the name: [Batas.ZIP] and [batas.zip] with the same
    content take the same branch, use the same scratch names and end in the
    same result. *)
Theorem load_data_ignores_name_case h env n buf w :
  is_ascii n = true ->
  load_data_on h env (Some (mkUpload (PyStr.lower n) buf)) w =
  load_data_on h env (Some (mkUpload n buf)) w.
Proof.
  intros _.
  unfold load_data_on, load_data_try_on, read_upload_on, save_upload_on.
  rewrite upload_suffix_lower. reflexivity.
Qed.

Lemma load_data_ignores_name_case_witness :
  load_data_on locked_host (ref_env (archive_ab, None) None (Ok jakarta))
    (Some (mkUpload "batas.zip" [])) world0 =
  load_data_on locked_host (ref_env (archive_ab, None) None (Ok jakarta))
    (Some upload_zip) world0.
Proof.
  apply (load_data_ignores_name_case locked_host
           (ref_env (archive_ab, None) None (Ok jakarta)) "Batas.ZIP" [] world0).
  reflexivity.
Defined.

(** X17. A single-file upload, whatever its extension other than [.zip], on a
    host where the scratch file can be created, written, closed and deleted:
    the upload is saved to a scratch file, the file is handed to the format
    driver with the format left to be inferred, and the call ends as the
    driver, validation and reprojection decide; a driver fault is reported
    with the general load-failure message.  The scratch file is removed. *)
Theorem single_file_goes_to_driver h env up w r :
  reliable_removal h ->
  close_fault h (getbuffer up) = None ->
  upload_suffix up <> ".zip" ->
  tmpfile_rand env = Ok r ->
  fs w !! scratch_name (gettempdir env) r (upload_suffix up) = None ->
  write_fault env (getbuffer up) = None ->
  exists s o evs,
    load_data_on h env (Some up) w = (s, o) /\
    trace (world s) =
      trace w ++ EvCreate (scratch_name (gettempdir env) r (upload_suffix up))
              :: EvRead (scratch_name (gettempdir env) r (upload_suffix up)) None
              :: evs ++ [EvRemove (scratch_name (gettempdir env) r (upload_suffix up))] /\
    fs (world s) = fs w /\
    match read_file env
            (saved_fs up w (scratch_name (gettempdir env) r (upload_suffix up)))
            (scratch_name (gettempdir env) r (upload_suffix up)) None with
    | Err e => o = Returned None /\ evs = [EvError (msg_load_failed e)]
    | Ok g0 =>
        if (empty g0 || negb (has_geometry_column g0))%bool
        then o = Returned None /\ evs = [EvError msg_no_geometry]
        else match reproject env g0 with
             | Ok g => o = Returned (Some g) /\ evs = []
             | Err e => o = Returned None /\ evs = [EvError (msg_load_failed e)]
             end
    end.
Proof.
  intros Hrel Hc Hs Hr Hf Hw.
  rewrite (load_data_on_bridge h env (Some up) w Hrel Hc).
  pose proof (read_upload_single _ _ _ _ Hs Hr Hf Hw) as E. simpl in E.
  rewrite (load_data_cases _ _ _ _ _ E).
  assert (Hcl : forall evs (o : Outcome (option GeoDataFrame)),
            exists s' o' evs',
              (cleaned (mkState
                 (mkWorld (saved_fs up w (scratch_name (gettempdir env) r (upload_suffix up)))
                    (trace w ++
                     [EvCreate (scratch_name (gettempdir env) r (upload_suffix up));
                      EvRead (scratch_name (gettempdir env) r (upload_suffix up)) None]
                     ++ evs))
                 (Some (scratch_name (gettempdir env) r (upload_suffix up))) None),
               o) = (s', o') /\
              trace (world s') =
                trace w ++ EvCreate (scratch_name (gettempdir env) r (upload_suffix up))
                  :: EvRead (scratch_name (gettempdir env) r (upload_suffix up)) None
                  :: evs' ++ [EvRemove (scratch_name (gettempdir env) r (upload_suffix up))] /\
              fs (world s') = fs w /\
              o' = o /\ evs' = evs).
  { intros evs o. rewrite cleaned_single. do 2 eexists. exists evs.
    split; [reflexivity|]. simpl. split; [reflexivity|].
    split; [unfold saved_fs; by apply delete_insert_fresh | done]. }
  destruct (read_file env _ _ None) as [g0|e]; simpl.
  - destruct (empty g0 || negb (has_geometry_column g0))%bool;
      [|destruct (reproject env g0) as [g|e]].
    + destruct (Hcl [EvError msg_no_geometry] (Returned None))
        as (s' & o' & evs' & H1 & H2 & H3 & -> & ->).
      exists s', (Returned None), [EvError msg_no_geometry].
      unfold report, set_world, log; simpl. by rewrite <- app_assoc.
    + destruct (Hcl [] (Returned (Some g)))
        as (s' & o' & evs' & H1 & H2 & H3 & -> & ->).
      exists s', (Returned (Some g)), []. by rewrite app_nil_r in H1.
    + destruct (Hcl [EvError (msg_load_failed e)] (Returned None))
        as (s' & o' & evs' & H1 & H2 & H3 & -> & ->).
      exists s', (Returned None), [EvError (msg_load_failed e)].
      unfold report, set_world, log; simpl. by rewrite <- app_assoc.
  - destruct (Hcl [EvError (msg_load_failed e)] (Returned None))
      as (s' & o' & evs' & H1 & H2 & H3 & -> & ->).
    exists s', (Returned None), [EvError (msg_load_failed e)].
    unfold report, set_world, log; simpl. by rewrite <- app_assoc.
Qed.

Lemma single_file_goes_to_driver_witness :
  exists s o evs,
    load_data_on reliable_host (ref_env ([], None) None (Ok jakarta))
      (Some upload_geojson) world0 = (s, o) /\
    trace (world s) =
      EvCreate "/tmp/tmpk3v9x2ab.geojson" :: EvRead "/tmp/tmpk3v9x2ab.geojson" None
        :: evs ++ [EvRemove "/tmp/tmpk3v9x2ab.geojson"] /\
    fs (world s) = ∅ /\
    o = Returned (Some jakarta_wgs84) /\
    evs = [].
Proof.
  apply (single_file_goes_to_driver reliable_host
           (ref_env ([], None) None (Ok jakarta))
           upload_geojson world0 "k3v9x2ab"); by vm_compute.
Defined.

(** X18. On a host where [os.remove] does not fault, [load_data] always
    returns: no fault of scratch writing, closing, extraction, loading,
    validation or reprojection leaves it as an exception, and
    [shutil.rmtree] raises nothing.  Without an upload it returns [None] and
    reports nothing; with one, it returns a data set and reports no error, or
    returns [None] and reports exactly one message. *)
Theorem load_data_returns_unless_remove_faults h env uploaded_file w :
  (forall p, remove_fault h p = None) ->
  exists s v evs,
    load_data_on h env uploaded_file w = (s, Returned v) /\
    trace (world s) = trace w ++ evs /\
    match uploaded_file, v with
    | None, _ => v = None /\ evs = []
    | Some _, Some _ => errors evs = []
    | Some _, None => exists msg, errors evs = [msg]
    end.
Proof.
  intros Hrm. destruct uploaded_file as [up|].
  - destruct (read_upload_on h env up (mkState w None None)) as [s1 c1] eqn:E.
    pose proof (post_run _ _ _ _ _ (read_upload_on_post h env up w) E)
      as (HI & _ & evs & Ht & _ & _ & _ & Herr).
    rewrite (load_data_on_unfold _ _ _ _ _ _ E).
    destruct (settled_trace env s1 c1) as (extra & Ht' & _ & _ & Hx).
    destruct (finally_on_normal h _ (Inv_settled env s1 c1 HI))
      as (s' & -> & _ & _ & _ & evs' & Ht'' & Herr' & _).
    { intros p _. apply Hrm. }
    remember (snd (settled env s1 c1)) as v eqn:Hv. clear Hv.
    exists s', v, (evs ++ extra ++ evs').
    split; [reflexivity|]. split.
    { by rewrite Ht'', Ht', Ht, <- !app_assoc. }
    rewrite !errors_app, Herr', app_nil_r.
    destruct c1 as [g|v0|e].
    + rewrite Herr. destruct v as [g'|].
      * by subst extra.
      * destruct Hx as [m ->]. by exists m.
    + destruct Hx as [-> ->]. destruct Herr as [-> [m ->]]. by exists m.
    + rewrite Herr. destruct v as [g'|].
      * by subst extra.
      * destruct Hx as [m ->]. by exists m.
  - exists (mkState w None None), None, []. simpl. by rewrite app_nil_r.
Qed.

Lemma load_data_returns_unless_remove_faults_witness :
  exists s v evs,
    load_data_on full_disk_host (ref_env ([], None) None (Ok jakarta))
      (Some upload_geojson) world0 = (s, Returned v) /\
    trace (world s) = evs /\
    v = None /\
    exists msg, errors evs = [msg].
Proof.
  destruct (load_data_returns_unless_remove_faults full_disk_host
              (ref_env ([], None) None (Ok jakarta)) (Some upload_geojson) world0)
    as (s & v & evs & Hl & Ht & Hv).
  - reflexivity.
  - exists s, v, evs. split; [exact Hl|]. split; [exact Ht|].
    assert (Hn : v = None).
    { vm_compute in Hl. by injection Hl as _ <-. }
    subst v. by split.
Defined.

(** ** The script on the host, run by run *)

#[local] Arguments load_data_on : simpl never.

Ltac run_script_page :=
  unfold run_script, script, script_head, st_file_uploader, script_col1, app_col2,
    app_foot, call_create_map, call_load_data_on, emit, page_warning, bind, pure,
    modify, lift, py_raise;
  simpl.

Lemma run_script_refused h env offered basemap w e :
  file_uploader h uploader_types offered = Err e ->
  run_script h env offered basemap w = (mkPage w page_before_uploader, Raised e).
Proof. intros H. run_script_page. rewrite H. reflexivity. Qed.

Lemma run_script_absent h env offered basemap w :
  file_uploader h uploader_types offered = Ok None ->
  run_script h env offered basemap w = run_app env None basemap w.
Proof.
  intros H. rewrite run_app_absent. run_script_page. rewrite H. simpl.
  rewrite create_map_eq. reflexivity.
Qed.

Lemma run_script_raised h env offered up basemap w s e :
  file_uploader h uploader_types offered = Ok (Some up) ->
  load_data_on h env (Some up) w = (s, Raised e) ->
  run_script h env offered basemap w =
    (mkPage (world s) (page_top ++ [(InCol1, ElSpinner "📥 Memuat data...")]), Raised e).
Proof. intros H Hl. run_script_page. rewrite H. simpl. rewrite Hl. reflexivity. Qed.

Lemma run_script_failed h env offered up basemap w s :
  file_uploader h uploader_types offered = Ok (Some up) ->
  load_data_on h env (Some up) w = (s, Returned None) ->
  run_script h env offered basemap w =
    (mkPage (log (EvWarning "⚠️ Tidak ada data geospasial valid.") (world s))
            (page_top ++ [(InCol1, ElSpinner "📥 Memuat data...")]
             ++ no_data_elements ++ page_foot),
     Returned tt).
Proof. intros H Hl. run_script_page. rewrite H. simpl. rewrite Hl. reflexivity. Qed.

Lemma run_script_loaded h env offered up basemap w s g :
  file_uploader h uploader_types offered = Ok (Some up) ->
  load_data_on h env (Some up) w = (s, Returned (Some g)) ->
  run_script h env offered basemap w =
    let '(w', m) := create_map env (Some g) basemap (world s) in
    let shown :=
      page_top ++ [(InCol1, ElSpinner "📥 Memuat data...");
                   (InCol1, ElSuccess ("✅ Data berhasil dimuat (" +:+ pretty (nrows g)
                                       +:+ " fitur)"));
                   (InCol1, ElFolium (match m with Returned v => v | Raised _ => None end)
                              750 500 "map")]
      ++ summary_elements g in
    match to_json env g with
    | Ok js =>
        (mkPage w' (shown ++ [(InCol2, ElDownloadButton "💾 Download GeoJSON" js
                                         "data.geojson" "application/json")]
                    ++ page_foot),
         Returned tt)
    | Err e => (mkPage w' shown, Raised e)
    end.
Proof.
  intros H Hl. rewrite create_map_eq.
  destruct (to_json env g) as [js|e] eqn:Hj; destruct (empty g) eqn:He.
  all: run_script_page; rewrite H; simpl; rewrite Hl; simpl;
    rewrite create_map_eq, He, ?Hj; simpl; rewrite ?Hj; reflexivity.
Qed.


Lemma quiet_file_uploader_filters cf rf rl :
  uploader_filters (mkHost quiet_file_uploader cf rf rl).
Proof.
  intros types [f0|] f; simpl; [|discriminate].
  destruct (existsb _ _) eqn:Hx; [|discriminate]. by intros [= <-].
Qed.

(** ** The script on the host: what a visitor gets *)



(** X15. Three faults, and no other, leave the script: the refusal the
    upload widget raises, the fault of [os.remove] on the scratch file in the
    [finally] block of [load_data], and the fault of the GeoJSON
    serialisation of line 195 on the data set [load_data] returned.  The
    exception of the run is that fault. *)
Theorem script_raises_exactly_when h env offered basemap w e :
  snd (run_script h env offered basemap w) = Raised e <->
  file_uploader h uploader_types offered = Err e \/
  exists up,
    file_uploader h uploader_types offered = Ok (Some up) /\
    ((exists p, tmp_path (fst (load_data_on h env (Some up) w)) = Some p /\
                remove_fault h p = Some e) \/
     (exists g, snd (load_data_on h env (Some up) w) = Returned (Some g) /\
                to_json env g = Err e)).
Proof.
  destruct (file_uploader h uploader_types offered) as [[up|]|e'] eqn:Hu.
  - assert (Hiff :
      (Ok (Some up) = Err e \/
       exists up0 : UploadedFile,
         Ok (Some up) = Ok (Some up0) /\
         ((exists p, tmp_path (fst (load_data_on h env (Some up0) w)) = Some p /\
                     remove_fault h p = Some e) \/
          (exists g, snd (load_data_on h env (Some up0) w) = Returned (Some g) /\
                     to_json env g = Err e))) <->
      (snd (load_data_on h env (Some up) w) = Raised e \/
       exists g, snd (load_data_on h env (Some up) w) = Returned (Some g) /\
                 to_json env g = Err e)).
    { split.
      - intros [[=] | (up' & [= <-] & [Hp | Hg])];
          [left; by apply load_data_on_raises | by right].
      - intros [Hr | Hg]; right; exists up; (split; [done|]);
          [left; by apply load_data_on_raises | by right]. }
    rewrite Hiff. clear Hiff.
    destruct (load_data_on h env (Some up) w) as [s [[g|]|e']] eqn:Hl.
    + rewrite (run_script_loaded _ _ _ _ _ _ _ _ Hu Hl).
      destruct (create_map env (Some g) basemap (world s)) as [w' m].
      destruct (to_json env g) as [js|e''] eqn:Hj; simpl.
      * split; [discriminate|]. intros [[=] | (g' & [= <-] & Hj')]. congruence.
      * split.
        -- intros [= ->]. right. by exists g.
        -- intros [[=] | (g' & [= <-] & Hj')]. congruence.
    + rewrite (run_script_failed _ _ _ _ _ _ _ Hu Hl). simpl.
      split; [discriminate|]. by intros [[=] | (g' & [=] & _)].
    + rewrite (run_script_raised _ _ _ _ _ _ _ _ Hu Hl). simpl. split.
      * intros [= ->]. by left.
      * by intros [[= ->] | (g' & [=] & _)].
  - rewrite (run_script_absent _ _ _ _ _ Hu), run_app_absent. simpl.
    split; [discriminate|]. by intros [[=] | (up' & [=] & _)].
  - rewrite (run_script_refused _ _ _ _ _ _ Hu). simpl. split.
    + intros [= ->]. by left.
    + by intros [[= ->] | (up' & [=] & _)].
Qed.

(** X16. On a host where deleting succeeds, a page run leaves the file
    system as it found it whenever the write of the scratch file does not
    fault: nothing of an upload stays on disk after the page is rendered,
    whether the widget handed the file over or not and whether the load
    succeeded or not. *)
Theorem page_restores_file_system h env offered basemap w :
  reliable_removal h ->
  match file_uploader h uploader_types offered with
  | Ok (Some up) => write_fault env (getbuffer up) = None
  | _ => True
  end ->
  fs (page_world (fst (run_script h env offered basemap w))) = fs w.
Proof.
  intros Hrel Hw.
  destruct (file_uploader h uploader_types offered) as [[up|]|e'] eqn:Hu.
  - pose proof (load_data_on_fs h env up w Hrel Hw) as Hfs.
    destruct (load_data_on h env (Some up) w) as [s [[g|]|e']] eqn:Hl; simpl in Hfs.
    + rewrite (run_script_loaded _ _ _ _ _ _ _ _ Hu Hl).
      pose proof (create_map_fs env (Some g) basemap (world s)) as Hc.
      destruct (create_map env (Some g) basemap (world s)) as [w' m]. simpl in Hc.
      destruct (to_json env g); simpl; congruence.
    + rewrite (run_script_failed _ _ _ _ _ _ _ Hu Hl). simpl. exact Hfs.
    + rewrite (run_script_raised _ _ _ _ _ _ _ _ Hu Hl). simpl. exact Hfs.
  - by rewrite (run_script_absent _ _ _ _ _ Hu), run_app_absent.
  - by rewrite (run_script_refused _ _ _ _ _ _ Hu).
Qed.

Lemma page_restores_file_system_witness :
  fs (page_world (fst (run_script full_disk_host
                         (ref_env (archive_ab, None) None (Ok jakarta_utm))
                         (Some upload_zip) "Stamen Terrain" world0))) = ∅.
Proof.
  apply (page_restores_file_system full_disk_host
           (ref_env (archive_ab, None) None (Ok jakarta_utm))
           (Some upload_zip) "Stamen Terrain" world0).
  - split; intros; reflexivity.
  - reflexivity.
Defined.

(** ** A directory that cannot be deleted *)

(** [load_data] on the reliable host, by where [try] and [except] left it. *)
Lemma load_data_settled env up w s1 c1 :
  read_upload env up (mkState w None None) = (s1, c1) ->
  load_data env (Some up) w =
    (cleaned (fst (settled env s1 c1)), Returned (snd (settled env s1 c1))).
Proof.
  intros E. rewrite (load_data_cases _ _ _ _ _ E). unfold settled.
  destruct c1 as [g|v|e]; try done.
  destruct (empty g || negb (has_geometry_column g))%bool; [done|].
  by destruct (reproject env g).
Qed.

(** The [finally] block when [shutil.rmtree] leaves [rest] in the
    directory. *)
Lemma finally_on_leftover h s p d es rest :
  Inv s -> tmp_path s = Some p -> extract_dir s = Some d ->
  fs (world s) !! d = Some (Directory es) ->
  remove_fault h p = None ->
  rmtree_left h d es = Some rest ->
  load_data_finally_on h s =
    (mkState (mkWorld (<[d := Directory rest]> (delete p (fs (world s))))
                      (trace (world s) ++ [EvRemove p; EvRmtree d]))
             (Some p) (Some d),
     Normal tt).
Proof.
  intros [Hp Hd] Tp Td Fd Hrm Hrt. apply post_eq. unfold load_data_finally_on.
  destruct s as [[fsys tr] tp ed]; simpl in *. subst tp ed.
  destruct (Hp p eq_refl) as [Tr [data Fp]]. unfold truthy in Tr.
  destruct (Hd d eq_refl) as [Tr' _]. unfold truthy in Tr'.
  assert (p <> d) by congruence.
  wp_on; simpl in *; simplify_map_eq; try done.
  all: try match goal with H : bool_decide _ = false |- _ =>
         apply bool_decide_eq_false_1 in H; exfalso; apply H; simplify_map_eq; by eexists end.
  unfold set_world, log, set_fs; simpl. by rewrite <- app_assoc.
Qed.

(** X19. When [shutil.rmtree] cannot delete the extraction directory, nothing
    tells: [ignore_errors=True] swallows the fault, [load_data] returns what
    it returns on a host where the deletion succeeds and reports the same,
    and the directory stays on disk with what was left in it. *)
Theorem undeleted_directory_goes_unreported h env up w r r' entries rest :
  extracts env up w r r' entries ->
  close_fault h (getbuffer up) = None ->
  remove_fault h (scratch_name (gettempdir env) r ".zip") = None ->
  rmtree_left h (scratch_name (gettempdir env) r' "") entries = Some rest ->
  exists s,
    load_data_on h env (Some up) w = (s, snd (load_data env (Some up) w)) /\
    trace (world s) = trace (world (fst (load_data env (Some up) w))) /\
    fs (world s) = <[scratch_name (gettempdir env) r' "" := Directory rest]> (fs w).
Proof.
  intros Hx Hc Hrm Hrt.
  pose proof (read_upload_archive _ _ _ _ _ _ Hx) as E. simpl in E.
  destruct Hx as (_ & _ & Hf & _ & _ & Hne & Hf' & _).
  set (p := scratch_name (gettempdir env) r ".zip") in *.
  set (d := scratch_name (gettempdir env) r' "") in *.
  assert (Hs1 : exists evs c1,
            read_upload env up (mkState w None None) =
              (mkState (mkWorld (extracted_fs env up w r r' entries) (trace w ++ evs))
                       (Some p) (Some d), c1)).
  { rewrite E. destruct (collect_shp (os_walk d entries)); eauto. }
  clear E. destruct Hs1 as (evs & c1 & E).
  assert (E1 := E). rewrite <- (read_upload_on_closed h env up _ Hc) in E1.
  pose proof (post_run _ _ _ _ _ (read_upload_on_post h env up w) E1) as (HI & _).
  rewrite (load_data_on_unfold _ _ _ _ _ _ E1), (load_data_settled _ _ _ _ _ E).
  destruct (settled_locals env
              (mkState (mkWorld (extracted_fs env up w r r' entries) (trace w ++ evs))
                       (Some p) (Some d)) c1) as (Hp' & Hd' & Hfs).
  simpl in Hp', Hd', Hfs.
  rewrite (finally_on_leftover h _ p d entries rest (Inv_settled env _ c1 HI) Hp' Hd').
  - eexists. split; [reflexivity|]. unfold cleaned, removal_events. simpl.
    rewrite Hp', Hd', Hfs. split; [reflexivity|].
    unfold extracted_fs. fold p d. apply map_eq. intros i.
    destruct (decide (i = p)) as [Hi|]; destruct (decide (i = d)) as [Hj|];
      by simplify_map_eq.
  - rewrite Hfs. unfold extracted_fs. fold d. by simplify_map_eq.
  - exact Hrm.
  - exact Hrt.
Qed.

Lemma undeleted_directory_goes_unreported_witness :
  exists s,
    load_data_on busy_dir_host (ref_env (archive_ab, None) None (Ok jakarta))
      (Some upload_zip) world0
    = (s, Returned (Some jakarta_wgs84)) /\
    trace (world s) =
      [EvCreate "/tmp/tmpk3v9x2ab.zip"; EvMkdir "/tmp/tmpq7w1e5zz";
       EvRead "/tmp/tmpq7w1e5zz/a/jalan.shp" (Some "ESRI Shapefile");
       EvRemove "/tmp/tmpk3v9x2ab.zip"; EvRmtree "/tmp/tmpq7w1e5zz"] /\
    fs (world s) = <["/tmp/tmpq7w1e5zz" := Directory archive_ab]> ∅.
Proof.
  apply (undeleted_directory_goes_unreported busy_dir_host
           (ref_env (archive_ab, None) None (Ok jakarta)) upload_zip world0
           "k3v9x2ab" "q7w1e5zz" archive_ab archive_ab).
  - repeat split; by vm_compute.
  - reflexivity.
  - reflexivity.
  - reflexivity.
Defined.

(** ** What [load_data] does to the file system, on any host *)

(** The [finally] block, whatever the host does: it keeps the locals,
    creates and reports nothing, removes at most the two scratch objects the
    locals name, each once, and touches no other path. *)
Lemma finally_on_post h s :
  Inv s ->
  post (load_data_finally_on h) s
    (fun s' _ =>
       exists evs,
         trace (world s') = trace (world s) ++ evs /\
         errors evs = [] /\ created evs = [] /\
         removed evs = firstn (length (removed evs))
                         (match tmp_path s with Some p => [p] | None => [] end ++
                          match extract_dir s with Some d => [d] | None => [] end) /\
         forall q, tmp_path s <> Some q -> extract_dir s <> Some q ->
                   fs (world s') !! q = fs (world s) !! q).
Proof.
  intros [Hp Hd]. unfold load_data_finally_on.
  destruct s as [[fsys tr] [p|] [d|]]; simpl in *.
  all: try (destruct (Hp p eq_refl) as [Tp [data Fp]]; unfold truthy in Tp).
  all: try (destruct (Hd d eq_refl) as [Td [es Fd]]; unfold truthy in Td).
  all: try assert (p <> d) by congruence.
  all: wp_on; simpl in *; simplify_map_eq.
  all: try (exfalso; eauto using mk_is_Some; fail).
  all: try match goal with H : bool_decide _ = false |- _ =>
         apply bool_decide_eq_false_1 in H; exfalso; apply H; simplify_map_eq; eauto end.
  all: eexists; split; [trace_eq|]; split; [done|]; split; [done|];
       split; [done|]; intros q Hq1 Hq2; simpl;
       repeat match goal with
              | |- context [<[?k := _]> _ !! q] => rewrite lookup_insert_ne by congruence
              | |- context [delete ?k _ !! q] => rewrite lookup_delete_ne by congruence
              end; done.
Qed.

(** Where the paths the locals name come from: they are fresh in the file
    system the call found. *)
Lemma scratch_accounted_lookup env up w s i x :
  Inv s -> scratch_accounted env up w s ->
  fs w !! i = Some x ->
  tmp_path s <> Some i /\ extract_dir s <> Some i /\ fs (world s) !! i = Some x.
Proof.
  intros [Hp Hd] [Ha | (Tp & Td & p & e & _ & Hf & Hfs)] Hi.
  - rewrite <- Ha in Hi.
    assert (Hdel : forall (o : option string) (m : gmap string Node),
              delete_opt o m !! i = Some x -> o <> Some i /\ m !! i = Some x).
    { intros [k|] m; simpl; [|by split].
      destruct (decide (k = i)) as [->|Hk].
      - by rewrite lookup_delete_eq.
      - rewrite lookup_delete_ne by done. split; congruence. }
    apply Hdel in Hi as [Hd' Hi]. apply Hdel in Hi as [Hp' Hi]. done.
  - rewrite Tp, Td, Hfs. repeat split; try done.
    rewrite lookup_insert_ne; [done|]. congruence.
Qed.



(** X20. On any host, whatever faults and whatever the deletions achieve,
    [load_data] leaves every file and directory that existed before the call
    as it was. *)
Theorem preexisting_files_survive_any_host h env uploaded_file w :
  fs w ⊆ fs (world (fst (load_data_on h env uploaded_file w))).
Proof.
  destruct uploaded_file as [up|]; [|done].
  destruct (read_upload_on h env up (mkState w None None)) as [s1 c1] eqn:E.
  pose proof (post_run _ _ _ _ _ (read_upload_on_post h env up w) E) as (HI & Ha & _).
  rewrite (load_data_on_unfold _ _ _ _ _ _ E).
  destruct (load_data_finally_on h (fst (settled env s1 c1))) as [s3 c3] eqn:F.
  pose proof (post_run _ _ _ _ _ (finally_on_post h _ (Inv_settled env s1 c1 HI)) F)
    as (evs & _ & _ & _ & _ & Hq).
  destruct (settled_locals env s1 c1) as (Hp' & Hd' & Hfs).
  simpl. apply map_subseteq_spec. intros i x Hi.
  destruct (scratch_accounted_lookup env up w s1 i x HI Ha Hi) as (Hp & Hd & Hx).
  rewrite Hq, Hfs; congruence.
Qed.


(** When the widget hands [uploaded_file] over and closing and deleting
    succeed, the run of the script is the run of [app] on [uploaded_file]. *)
Lemma run_script_on_reliable h env offered uploaded_file basemap w :
  file_uploader h uploader_types offered = Ok uploaded_file ->
  reliable_removal h ->
  match uploaded_file with
  | Some up => close_fault h (getbuffer up) = None
  | None => True
  end ->
  run_script h env offered basemap w = run_app env uploaded_file basemap w.
Proof.
  intros Hu Hrel Hc. destruct uploaded_file as [up|].
  - pose proof (load_data_on_bridge h env (Some up) w Hrel Hc) as Hb.
    destruct (load_data_summary env up w) as (s & v & evs & Hl & _).
    rewrite Hl in Hb. destruct v as [g|].
    + by rewrite (run_script_loaded _ _ _ _ _ _ _ _ Hu Hb), (run_app_loaded _ _ _ _ _ _ Hl).
    + by rewrite (run_script_failed _ _ _ _ _ _ _ Hu Hb), (run_app_failed _ _ _ _ _ Hl).
  - by apply run_script_absent.
Qed.
